(** * Reddit data pipeline: a shallow embedding of [reddit_code.py]

    The script has two fetchers ([download_hot_posts], [search_posts]), a
    persister ([save_to_csv]) and a driver.  The fetchers inspect the dynamic
    type of their arguments, so arguments are Python values ([pyval]); the
    API client and pandas are external, so the client is a record of answers
    and pandas is modelled by the three operations the script calls.
    Printing, API calls and the written file are effects on a [world]. *)

From Stdlib Require Import String Ascii List ZArith Lia Bool.
From Stdlib Require Import Floats.SpecFloat.
Import ListNotations.
Local Open Scope string_scope.
Local Open Scope list_scope.

Set Warnings "-register-all".

(** ** Python values *)

(** The values a caller can pass as [subreddit_names], [limit] or [query].
    A float is an IEEE value ([spec_float]); a Python [str] is a sequence of
    characters, modelled by [string]. *)
Inductive pyval : Type :=
| VNone
| VBool (b : bool)
| VInt (z : Z)
| VFloat (f : spec_float)
| VStr (s : string)
| VList (l : list pyval)
| VTuple (l : list pyval).

(** Python's truth-value protocol ([if x], [not x]). *)
Class Truthy (A : Type) := truthy : A -> bool.

#[global] Instance Truthy_bool : Truthy bool := fun b => b.
#[global] Instance Truthy_Z : Truthy Z := fun z => negb (Z.eqb z 0).
#[global] Instance Truthy_float : Truthy spec_float :=
  fun f => match f with S754_zero _ => false | _ => true end.
#[global] Instance Truthy_string : Truthy string :=
  fun s => match s with EmptyString => false | String _ _ => true end.
#[global] Instance Truthy_list {A} : Truthy (list A) :=
  fun l => match l with [] => false | _ :: _ => true end.
(** [None] is false; any other nullable attribute is as true as its value. *)
#[global] Instance Truthy_option {A} `{Truthy A} : Truthy (option A) :=
  fun o => match o with None => false | Some x => truthy x end.
#[global] Instance Truthy_pyval : Truthy pyval :=
  fun v => match v with
           | VNone => false
           | VBool b => truthy b
           | VInt z => truthy z
           | VFloat f => truthy f
           | VStr s => truthy s
           | VList l => truthy l
           | VTuple l => truthy l
           end.

(** [isinstance(v, list)], [isinstance(v, str)], [isinstance(v, int)].
    [bool] is a subclass of [int] in Python. *)
Definition isinstance_list (v : pyval) : bool :=
  match v with VList _ => true | _ => false end.
Definition isinstance_str (v : pyval) : bool :=
  match v with VStr _ => true | _ => false end.
Definition isinstance_int (v : pyval) : bool :=
  match v with VInt _ | VBool _ => true | _ => false end.

(** The integer an [int] instance stands for ([True] is 1, [False] is 0);
    only used on values that passed [isinstance_int]. *)
Definition int_value (v : pyval) : Z :=
  match v with
  | VInt z => z
  | VBool true => 1%Z
  | _ => 0%Z
  end.

(** The elements a [for] loop visits; the script only iterates over a value
    that passed [isinstance_list]. *)
Definition items (v : pyval) : list pyval :=
  match v with VList l => l | VTuple l => l | _ => [] end.

(** ** Exceptions *)

(** The exception classes the script distinguishes.  [PRAWException],
    [ValueError], [FileNotFoundError], [TypeError], [KeyError] and
    [OtherException] are subclasses of [Exception]; [KeyboardInterrupt]
    stands for the classes that derive from [BaseException] only. *)
Inductive exc_class : Type :=
| PRAWException
| ValueError
| FileNotFoundError
| TypeError
| KeyError
| OtherException
| KeyboardInterrupt.

Record exc : Type := Exc { exc_cls : exc_class; exc_msg : string }.

Inductive reply (A : Type) : Type :=
| Ok (a : A)
| Raises (e : exc).
Arguments Ok {A} a.
Arguments Raises {A} e.

(** ** The API client (praw) *)

(** The author of a post is a [Redditor] object (or [None]); an object
    without [__bool__] or [__len__] is true. *)
Record Redditor : Type := { redditor_name : string }.
#[global] Instance Truthy_Redditor : Truthy Redditor := fun _ => true.

(** The attributes of a fetched post that the fetchers read.  Each may be
    [None]. *)
Record Submission : Type := {
  title : option string;
  score : option Z;
  upvote_ratio : option spec_float;
  num_comments : option Z;
  author : option Redditor;
  url : option string;
  permalink : option string;
  created_utc : option spec_float;
  is_self : option bool;
  selftext : option string;
  link_flair_text : option string;
  domain : option string
}.

(** What iterating over a listing generator does: it yields posts, and may
    then fail. *)
Record listing : Type := {
  yielded : list Submission;
  failure : option exc
}.

(** [subreddit.hot(limit=...)] and
    [subreddit.search(query, limit=..., sort=...)]. *)
Record Subreddit : Type := {
  hot : pyval -> reply listing;
  search : pyval -> pyval -> string -> reply listing
}.

(** [reddit.subreddit(name)].  The client is an oracle: what it answers
    depends on the arguments of the call only. *)
Record Reddit : Type := {
  subreddit : pyval -> reply Subreddit
}.

(** ** Post records *)

(** The dict a fetcher builds per post.  A [None] field is the missing
    marker; [search_query] is [None] when the key is not in the dict (hot
    posts). *)
Module PostRecord.
Record t : Type := {
  title : option string;
  score : option Z;
  upvote_ratio : option spec_float;
  num_comments : option Z;
  author : option Redditor;
  subreddit : pyval;
  url : option string;
  permalink : option string;
  created_utc : option spec_float;
  is_self : option bool;
  selftext : option string;
  flair : option string;
  domain : option string;
  search_query : option pyval
}.
End PostRecord.

(** What a fetcher returns and what the driver passes on: a list of post
    records, the [False] sentinel, an integer, or [None]. *)
Inductive pyobj : Type :=
| ONone
| OBool (b : bool)
| OInt (z : Z)
| OList (l : list PostRecord.t).

#[global] Instance Truthy_pyobj : Truthy pyobj :=
  fun v => match v with
           | ONone => false
           | OBool b => truthy b
           | OInt z => truthy z
           | OList l => truthy l
           end.

(** ** Effects *)

(** An f-string before formatting: literal text and the interpolated
    values. *)
Inductive fragment : Type :=
| Lit (s : string)
| Val (v : pyval)
| Num (n : Z).
Definition line : Type := list fragment.

Definition nl : string := String (ascii_of_nat 10) EmptyString.

Inductive api_call : Type :=
| CallSubreddit (name : pyval)
| CallHot (name limit : pyval)
| CallSearch (name query limit : pyval) (sort : string).

(** A row of a table, as far as the script depends on it: its label in the
    index, which is the position in the input list of the dict the row was
    built from, and its [permalink] cell.  The other cells are what pandas'
    column type inference makes of the dicts' values (a numeric column that
    holds a missing value is stored as float64, for one) and are left
    out. *)
Record row : Type := {
  row_label : nat;
  row_permalink : option string
}.

(** A written file: the header row and one line per row of the table, in
    order.  A line is told by the row it renders; the label itself is not
    written (no index column). *)
Record csv_file : Type := {
  csv_header : list string;
  csv_rows : list row
}.

Record world : Type := {
  console : list line;
  api_calls : list api_call;
  files : list (string * csv_file)
}.

Definition M (A : Type) : Type := world -> reply A * world.

Definition ret {A} (a : A) : M A := fun w => (Ok a, w).
Definition raise {A} (e : exc) : M A := fun w => (Raises e, w).
Definition bind {A B} (m : M A) (k : A -> M B) : M B :=
  fun w => match m w with
           | (Ok a, w') => k a w'
           | (Raises e, w') => (Raises e, w')
           end.
Definition lift {A} (r : reply A) : M A := fun w => (r, w).

Declare Scope py_scope.
Delimit Scope py_scope with py.
Notation "x <- m ;; k" := (bind m (fun x => k))
  (at level 61, m at next level, right associativity) : py_scope.
Notation "m ;; k" := (bind m (fun _ => k))
  (at level 61, right associativity) : py_scope.
Local Open Scope py_scope.

Definition print (l : line) : M unit :=
  fun w => (Ok tt, {| console := console w ++ [l];
                      api_calls := api_calls w;
                      files := files w |}).

(** A call on the client: it is recorded, then it answers or raises. *)
Definition call {A} (c : api_call) (r : reply A) : M A :=
  fun w => (r, {| console := console w;
                  api_calls := api_calls w ++ [c];
                  files := files w |}).

(** [try: body except ...]: [handler e] is the clause that matches [e], if
    any. *)
Definition try_except {A} (body : M A) (handler : exc -> option (M A)) : M A :=
  fun w => match body w with
           | (Ok a, w') => (Ok a, w')
           | (Raises e, w') =>
               match handler e with
               | Some h => h w'
               | None => (Raises e, w')
               end
           end.

(** [for x in l: body], and a loop that updates local variables. *)
Fixpoint for_each {A} (l : list A) (body : A -> M unit) : M unit :=
  match l with
  | [] => ret tt
  | x :: rest => body x ;; for_each rest body
  end.

Fixpoint for_fold {A S} (l : list A) (body : S -> A -> M S) (s : S) : M S :=
  match l with
  | [] => ret s
  | x :: rest => s' <- body s x ;; for_fold rest body s'
  end.

(** [for post in posts: ...] over a listing generator, with a body that
    cannot raise: the body runs on each yielded post, then the generator's
    failure (if any) is raised. *)
Definition for_listing {S} (l : listing) (step : S -> Submission -> S) (s : S) : M S :=
  let s' := fold_left step (yielded l) s in
  match failure l with
  | Some e => raise e
  | None => ret s'
  end.

(** ** The fetchers *)

(** [x if x else None]. *)
Definition or_none {A} `{Truthy A} (x : option A) : option A :=
  if truthy x then x else None.

(** [s[:n]]. *)
Definition slice_to (n : nat) (s : string) : string := substring 0 n s.

(** [post.selftext[:500] if post.selftext else None]. *)
Definition selftext_field (x : option string) : option string :=
  if truthy x then option_map (slice_to 500) x else None.

(** The dict literal of [download_hot_posts]. *)
Definition hot_record (subreddit_name : pyval) (post : Submission) : PostRecord.t :=
  {| PostRecord.title := or_none (title post);
     PostRecord.score := or_none (score post);
     PostRecord.upvote_ratio := or_none (upvote_ratio post);
     PostRecord.num_comments := or_none (num_comments post);
     PostRecord.author := or_none (author post);
     PostRecord.subreddit := subreddit_name;
     PostRecord.url := or_none (url post);
     PostRecord.permalink := or_none (permalink post);
     PostRecord.created_utc := or_none (created_utc post);
     PostRecord.is_self := or_none (is_self post);
     PostRecord.selftext := selftext_field (selftext post);
     PostRecord.flair := or_none (link_flair_text post);
     PostRecord.domain := or_none (domain post);
     PostRecord.search_query := None |}.

(** The dict literal of [search_posts]. *)
Definition search_record (query subreddit_name : pyval) (post : Submission)
  : PostRecord.t :=
  {| PostRecord.title := or_none (title post);
     PostRecord.score := or_none (score post);
     PostRecord.upvote_ratio := or_none (upvote_ratio post);
     PostRecord.num_comments := or_none (num_comments post);
     PostRecord.author := or_none (author post);
     PostRecord.subreddit := subreddit_name;
     PostRecord.url := or_none (url post);
     PostRecord.permalink := or_none (permalink post);
     PostRecord.created_utc := or_none (created_utc post);
     PostRecord.is_self := or_none (is_self post);
     PostRecord.selftext := selftext_field (selftext post);
     PostRecord.flair := or_none (link_flair_text post);
     PostRecord.domain := or_none (domain post);
     PostRecord.search_query := Some query |}.

(** The checks on [subreddit_names] and [limit] that open both fetchers. *)
Definition check_subreddit_names (subreddit_names : pyval) : M unit :=
  if negb (truthy subreddit_names) || negb (isinstance_list subreddit_names)
  then raise (Exc ValueError "Subreddit names must be a non-empty list")
  else
    for_each (items subreddit_names) (fun subreddit_name =>
      if negb (truthy subreddit_name) || negb (isinstance_str subreddit_name)
      then raise (Exc ValueError "Subreddit name must be a non-empty string")
      else ret tt).

Definition check_limit (limit : pyval) : M unit :=
  if negb (isinstance_int limit) || (int_value limit <=? 0)%Z
  then raise (Exc ValueError "Limit must be a positive integer")
  else ret tt.

Definition check_query (query : pyval) : M unit :=
  if negb (truthy query) || negb (isinstance_str query)
  then raise (Exc ValueError "Query must be a non-empty string")
  else ret tt.

(** The four [except] clauses that close both fetchers, in order. *)
Definition fetch_handlers (e : exc) : option (M pyobj) :=
  match exc_cls e with
  | PRAWException =>
      Some (print [Lit "Reddit API error: "; Lit (exc_msg e)] ;; ret (OBool false))
  | ValueError =>
      Some (print [Lit "Input validation error: "; Lit (exc_msg e)] ;; ret (OBool false))
  | FileNotFoundError =>
      Some (print [Lit "File error: "; Lit (exc_msg e)] ;; ret (OBool false))
  | KeyboardInterrupt => None
  | TypeError | KeyError | OtherException =>
      Some (print [Lit "Unexpected error: "; Lit (exc_msg e)] ;; ret (OBool false))
  end.

(** One turn of the loop over the forums in [download_hot_posts]. *)
Definition hot_turn (reddit : Reddit) (limit : pyval)
    (hot_posts : list PostRecord.t) (subreddit_name : pyval)
  : M (list PostRecord.t) :=
  sub <- call (CallSubreddit subreddit_name) (subreddit reddit subreddit_name) ;;
  posts <- call (CallHot subreddit_name limit) (hot sub limit) ;;
  print [Lit "Downloading "; Val limit; Lit " hot posts from r/";
         Val subreddit_name; Lit ("..." ++ nl)] ;;
  st <- for_listing posts
          (fun st post => (fst st ++ [hot_record subreddit_name post], (snd st + 1)%Z))
          (hot_posts, 0%Z) ;;
  print [Lit "Successfully downloaded "; Num (snd st); Lit " posts from ";
         Val subreddit_name; Lit "!"] ;;
  ret (fst st).

Definition download_hot_posts (reddit : Reddit) (subreddit_names limit : pyval)
  : M pyobj :=
  check_subreddit_names subreddit_names ;;
  check_limit limit ;;
  try_except
    (hot_posts <- for_fold (items subreddit_names) (hot_turn reddit limit) [] ;;
     ret (OList hot_posts))
    fetch_handlers.

(** One turn of the loop over the forums in [search_posts]. *)
Definition search_turn (reddit : Reddit) (query limit : pyval)
    (keyword_posts : list PostRecord.t) (subreddit_name : pyval)
  : M (list PostRecord.t) :=
  sub <- call (CallSubreddit subreddit_name) (subreddit reddit subreddit_name) ;;
  posts <- call (CallSearch subreddit_name query limit "relevance")
             (search sub query limit "relevance") ;;
  print [Lit "Downloading "; Val limit; Lit " keyword posts from r/";
         Val subreddit_name; Lit ("..." ++ nl)] ;;
  st <- for_listing posts
          (fun st post =>
             (fst st ++ [search_record query subreddit_name post], (snd st + 1)%Z))
          (keyword_posts, 0%Z) ;;
  print [Lit "Successfully downloaded "; Num (snd st); Lit " posts from ";
         Val subreddit_name; Lit "!"] ;;
  ret (fst st).

Definition search_posts (reddit : Reddit) (query subreddit_names limit : pyval)
  : M pyobj :=
  check_query query ;;
  check_subreddit_names subreddit_names ;;
  check_limit limit ;;
  try_except
    (keyword_posts <-
       for_fold (items subreddit_names) (search_turn reddit query limit) [] ;;
     ret (OList keyword_posts))
    fetch_handlers.

(** ** pandas *)

(** Keeps, in order, the elements of [l] whose key is neither in [seen] nor
    the key of an earlier element of [l]. *)
Fixpoint first_seen {A K} (eqb : K -> K -> bool) (key : A -> K)
    (seen : list K) (l : list A) : list A :=
  match l with
  | [] => []
  | x :: rest =>
      if existsb (eqb (key x)) seen
      then first_seen eqb key seen rest
      else x :: first_seen eqb key (key x :: seen) rest
  end.

(** A table: its column labels and its rows. *)
Record DataFrame : Type := {
  df_columns : list string;
  df_rows : list row
}.

(** [enumerate(l, start=i)]. *)
Fixpoint enumerate {A} (i : nat) (l : list A) : list (nat * A) :=
  match l with
  | [] => []
  | x :: rest => (i, x) :: enumerate (S i) rest
  end.

(** The row built from the dict at position [fst p]: a string or [None]
    under [permalink] is stored as it is. *)
Definition row_of (p : nat * PostRecord.t) : row :=
  {| row_label := fst p; row_permalink := PostRecord.permalink (snd p) |}.

(** The keys of a post record, in the order of the dict literal. *)
Definition record_keys (r : PostRecord.t) : list string :=
  ["title"; "score"; "upvote_ratio"; "num_comments"; "author"; "subreddit";
   "url"; "permalink"; "created_utc"; "is_self"; "selftext"; "flair"; "domain"]
  ++ match PostRecord.search_query r with
     | Some _ => ["search_query"]
     | None => []
     end.

(** [pd.DataFrame(data)]: from a list of dicts, one row per dict, labelled
    0, 1, 2, ... in list order, and one column per key, in order of first
    appearance; from nothing, the empty table; a scalar is refused. *)
Definition pd_DataFrame (data : pyobj) : reply DataFrame :=
  match data with
  | OList recs =>
      Ok {| df_columns := first_seen String.eqb (fun k => k) []
                            (flat_map record_keys recs);
            df_rows := map row_of (enumerate 0 recs) |}
  | ONone => Ok {| df_columns := []; df_rows := [] |}
  | OBool _ | OInt _ =>
      Raises (Exc ValueError "DataFrame constructor not properly called!")
  end.

(** Two cells of the [permalink] column count as the same key when they are
    the same text or both missing. *)
Definition same_key (a b : option string) : bool :=
  match a, b with
  | Some x, Some y => String.eqb x y
  | None, None => true
  | _, _ => false
  end.

(** [df.drop_duplicates(subset="permalink")], keeping the first row of each
    key, with the label it had; a table without the column is refused. *)
Definition drop_duplicates (df : DataFrame) : reply DataFrame :=
  if existsb (String.eqb "permalink") (df_columns df)
  then Ok {| df_columns := df_columns df;
             df_rows := first_seen same_key row_permalink [] (df_rows df) |}
  else Raises (Exc KeyError "permalink").

Definition len (df : DataFrame) : Z := Z.of_nat (length (df_rows df)).

(** The file store: writing a name replaces what it held. *)
Definition write_file (filename : string) (c : csv_file)
    (fs : list (string * csv_file)) : list (string * csv_file) :=
  (filename, c) :: filter (fun e => negb (String.eqb (fst e) filename)) fs.

Definition read_file (filename : string) (fs : list (string * csv_file))
  : option csv_file :=
  option_map snd (find (fun e => String.eqb (fst e) filename) fs).

(** [df.to_csv(filename, index=False)]: a header row, then the rows.  The
    write itself is taken to succeed. *)
Definition to_csv (df : DataFrame) (filename : string) : M unit :=
  fun w => (Ok tt,
            {| console := console w;
               api_calls := api_calls w;
               files := write_file filename
                          {| csv_header := df_columns df; csv_rows := df_rows df |}
                          (files w) |}).

(** ** The persister *)

Definition save_to_csv (all_posts : pyobj) (filename : string)
  : M (option DataFrame) :=
  if negb (truthy all_posts)
  then print [Lit "No posts to save."] ;; ret None
  else
    df <- lift (pd_DataFrame all_posts) ;;
    let before := len df in
    df <- lift (drop_duplicates df) ;;
    let after := len df in
    print [Lit "Removed "; Num (before - after); Lit " duplicate posts."] ;;
    print [Lit "Saving "; Num after; Lit " cleaned posts to '"; Lit filename;
           Lit ("'..." ++ nl)] ;;
    to_csv df filename ;;
    print [Lit "Data saved successfully to "; Lit filename] ;;
    ret (Some df).

(** ** The driver *)

(** [a + b] on the values the driver can hold. *)
Definition py_add (a b : pyobj) : reply pyobj :=
  match a, b with
  | OList x, OList y => Ok (OList (x ++ y))
  | OBool x, OBool y => Ok (OInt (Z.b2z x + Z.b2z y))
  | OBool x, OInt y => Ok (OInt (Z.b2z x + y))
  | OInt x, OBool y => Ok (OInt (x + Z.b2z y))
  | OInt x, OInt y => Ok (OInt (x + y))
  | _, _ => Raises (Exc TypeError "unsupported operand type(s) for +")
  end.

(** The script body from the forum list on; [reddit] is the client handle the
    lines before it build. *)
Definition subreddits : pyval :=
  VList [VStr "MachineLearning"; VStr "Artificial"; VStr "OpenAI"].

Definition main (reddit : Reddit) : M unit :=
  hot_posts <- download_hot_posts reddit subreddits (VInt 10) ;;
  search_results <- search_posts reddit (VStr "GPT-4") subreddits (VInt 10) ;;
  all_collected <- lift (py_add hot_posts search_results) ;;
  final_df <- save_to_csv all_collected "reddit_data.csv" ;;
  match final_df with
  | Some df =>
      print [Lit (nl ++ "Final dataset shape: ");
             Val (VTuple [VInt (len df);
                          VInt (Z.of_nat (length (df_columns df)))])] ;;
      print [Lit "Columns: "; Val (VList (map VStr (df_columns df)))]
  | None => ret tt
  end.

(** * Definitions used to state the properties *)

(** ** What the specification calls invalid input *)

(** A forum name is rejected when it is not a string or is empty. *)
Definition invalid_forum_name (n : pyval) : bool :=
  match n with
  | VStr s => String.eqb s ""
  | _ => true
  end.

(** The forum-name argument is rejected when it is not a list, is the empty
    list, or holds a rejected name. *)
Definition invalid_forum_names (v : pyval) : bool :=
  match v with
  | VList [] => true
  | VList l => existsb invalid_forum_name l
  | _ => true
  end.

(** The limit is rejected when it is not an integer, or is zero or negative.
    Integer is meant as Python means it: [True] is the integer 1 and [False]
    the integer 0. *)
Definition invalid_limit (v : pyval) : bool :=
  match v with
  | VInt z => (z <=? 0)%Z
  | VBool b => negb b
  | _ => true
  end.

Definition invalid_input (subreddit_names limit : pyval) : bool :=
  invalid_forum_names subreddit_names || invalid_limit limit.

Definition invalid_query (q : pyval) : bool :=
  match q with
  | VStr s => String.eqb s ""
  | _ => true
  end.

(** ** What the client answers *)

(** What the client answers for one forum: the listing behind
    [reddit.subreddit(name).hot(limit=limit)], and behind
    [reddit.subreddit(name).search(query, limit=limit, sort="relevance")]. *)
Definition hot_listing (reddit : Reddit) (limit name : pyval) : reply listing :=
  match subreddit reddit name with
  | Ok sub => hot sub limit
  | Raises e => Raises e
  end.

Definition search_listing (reddit : Reddit) (query limit name : pyval)
  : reply listing :=
  match subreddit reddit name with
  | Ok sub => search sub query limit "relevance"
  | Raises e => Raises e
  end.

Definition posts_of (r : reply listing) : list Submission :=
  match r with
  | Ok l => yielded l
  | Raises _ => []
  end.

(** The call answered and the iteration reached its end. *)
Definition completes (r : reply listing) : bool :=
  match r with
  | Ok l => match failure l with None => true | Some _ => false end
  | Raises _ => false
  end.

(** The records a loop over [names] collects: forum by forum, post by
    post. *)
Definition fetched (answer : pyval -> reply listing)
    (record_of : pyval -> Submission -> PostRecord.t) (names : list pyval)
  : list PostRecord.t :=
  flat_map (fun n => map (record_of n) (posts_of (answer n))) names.

(** ** Deduplication *)

(** Keeping the first occurrence of every permalink, as the specification
    words it: a row stays, and the later rows with its key go. *)
Fixpoint keep_first_occurrence (l : list PostRecord.t) : list PostRecord.t :=
  match l with
  | [] => []
  | r :: rest =>
      r :: filter (fun x => negb (same_key (PostRecord.permalink x)
                                           (PostRecord.permalink r)))
             (keep_first_occurrence rest)
  end.

Definition missing_permalink (r : PostRecord.t) : bool :=
  match PostRecord.permalink r with
  | None => true
  | Some _ => false
  end.

Definition row_missing_permalink (x : row) : bool :=
  match row_permalink x with
  | None => true
  | Some _ => false
  end.

(** The input record a row was built from: the one at the row's label. *)
Definition source_of (recs : list PostRecord.t) (x : row)
  : option PostRecord.t :=
  nth_error recs (row_label x).

(** The row's record is the first of the input with the row's permalink. *)
Definition first_with_its_permalink (recs : list PostRecord.t) (x : row)
  : Prop :=
  exists r,
    source_of recs x = Some r
    /\ PostRecord.permalink r = row_permalink x
    /\ forall j r', j < row_label x -> nth_error recs j = Some r' ->
                    PostRecord.permalink r' <> row_permalink x.

(** No key of [l] is in [seen] or occurs twice in [l]. *)
Fixpoint fresh_keys {A K} (eqb : K -> K -> bool) (key : A -> K)
    (seen : list K) (l : list A) : bool :=
  match l with
  | [] => true
  | x :: rest =>
      negb (existsb (eqb (key x)) seen) && fresh_keys eqb key (key x :: seen) rest
  end.

(** ** The table of the persister *)

(** The table [save_to_csv] builds from a list of post records. *)
Definition table_of (recs : list PostRecord.t) : DataFrame :=
  {| df_columns := first_seen String.eqb (fun k => k) [] (flat_map record_keys recs);
     df_rows := first_seen same_key row_permalink []
                  (map row_of (enumerate 0 recs)) |}.

Definition csv_of (df : DataFrame) : csv_file :=
  {| csv_header := df_columns df; csv_rows := df_rows df |}.

(** ** Sample data *)

Definition w0 : world := {| console := []; api_calls := []; files := [] |}.

Definition plus_zero : spec_float := S754_zero false.
Definition one_half : spec_float := S754_finite false 1 (-1).

Definition post_a : Submission :=
  {| title := Some "Attention is all you need";
     score := Some 42%Z;
     upvote_ratio := Some one_half;
     num_comments := Some 7%Z;
     author := Some {| redditor_name := "alice" |};
     url := Some "https://example.org/a";
     permalink := Some "/r/ml/a";
     created_utc := Some one_half;
     is_self := Some true;
     selftext := Some "hello";
     link_flair_text := Some "Research";
     domain := Some "example.org" |}.

Definition post_b : Submission :=
  {| title := Some "A second look";
     score := Some 3%Z;
     upvote_ratio := Some one_half;
     num_comments := Some 1%Z;
     author := None;
     url := Some "https://example.org/b";
     permalink := Some "/r/ml/b";
     created_utc := Some one_half;
     is_self := Some false;
     selftext := Some "";
     link_flair_text := None;
     domain := Some "example.org" |}.

(** A post whose every attribute is a false value other than [None]. *)
Definition post_zero : Submission :=
  {| title := Some "";
     score := Some 0%Z;
     upvote_ratio := Some plus_zero;
     num_comments := Some 0%Z;
     author := None;
     url := Some "";
     permalink := Some "";
     created_utc := Some plus_zero;
     is_self := Some false;
     selftext := Some "";
     link_flair_text := Some "";
     domain := Some "" |}.

Definition answer_with (ps : list Submission) : reply listing :=
  Ok {| yielded := ps; failure := None |}.

Definition outage : exc := Exc PRAWException "received 503 HTTP response".

(** A client that answers every listing and every search with two posts. *)
Definition steady_reddit : Reddit :=
  {| subreddit := fun _ =>
       Ok {| hot := fun _ => answer_with [post_a; post_b];
             search := fun _ _ _ => answer_with [post_b; post_zero] |} |}.

(** A client whose every call fails. *)
Definition down_reddit : Reddit :=
  {| subreddit := fun _ => Raises outage |}.

(** A client whose listings fail and whose searches answer. *)
Definition hot_down_reddit : Reddit :=
  {| subreddit := fun _ =>
       Ok {| hot := fun _ => Raises outage;
             search := fun _ _ _ => answer_with [post_a] |} |}.

Definition two_forums : pyval := VList [VStr "MachineLearning"; VStr "OpenAI"].

(** ** Bounds and order of a fetch *)

(** The client yields at most [limit] posts for each forum of the list. *)
Definition within_limit (limit : pyval) (answer : pyval -> reply listing)
    (subreddit_names : pyval) : Prop :=
  forall n, In n (items subreddit_names) ->
    (Z.of_nat (length (posts_of (answer n))) <= int_value limit)%Z.

(** Every call for a forum of the list answers and its iteration ends. *)
Definition all_complete (answer : pyval -> reply listing)
    (subreddit_names : pyval) : Prop :=
  forall n, In n (items subreddit_names) -> completes (answer n) = true.

(** Forum by forum in the order of the list, and within a forum in the order
    the posts were yielded. *)
Definition in_fetch_order (record_of : pyval -> Submission -> PostRecord.t)
    (answer : pyval -> reply listing) (subreddit_names : pyval)
    (recs : list PostRecord.t) : Prop :=
  recs = flat_map (fun n => map (record_of n) (posts_of (answer n)))
           (items subreddit_names).

Definition at_most_limit_per_forum (limit subreddit_names : pyval)
    (recs : list PostRecord.t) : Prop :=
  (Z.of_nat (length recs)
   <= int_value limit * Z.of_nat (length (items subreddit_names)))%Z.

(** ** False attribute values *)

(** The twelve fields of a record that are read off the post. *)
Inductive field : Type :=
| F_title | F_score | F_upvote_ratio | F_num_comments | F_author | F_url
| F_permalink | F_created_utc | F_is_self | F_selftext | F_flair | F_domain.

(** The false values of each kind of attribute, as the specification lists
    them: absent, empty text, zero, [False]. *)
Definition falsy_text (o : option string) : bool :=
  match o with None => true | Some s => String.eqb s "" end.
Definition falsy_int (o : option Z) : bool :=
  match o with None => true | Some z => Z.eqb z 0 end.
Definition falsy_float (o : option spec_float) : bool :=
  match o with None | Some (S754_zero _) => true | Some _ => false end.
Definition falsy_bool (o : option bool) : bool :=
  match o with None => true | Some b => negb b end.
Definition falsy_object (o : option Redditor) : bool :=
  match o with None => true | Some _ => false end.

Definition source_falsy (f : field) (post : Submission) : bool :=
  match f with
  | F_title => falsy_text (title post)
  | F_score => falsy_int (score post)
  | F_upvote_ratio => falsy_float (upvote_ratio post)
  | F_num_comments => falsy_int (num_comments post)
  | F_author => falsy_object (author post)
  | F_url => falsy_text (url post)
  | F_permalink => falsy_text (permalink post)
  | F_created_utc => falsy_float (created_utc post)
  | F_is_self => falsy_bool (is_self post)
  | F_selftext => falsy_text (selftext post)
  | F_flair => falsy_text (link_flair_text post)
  | F_domain => falsy_text (domain post)
  end.

Definition is_missing {A} (o : option A) : bool :=
  match o with None => true | Some _ => false end.

Definition record_missing (f : field) (r : PostRecord.t) : bool :=
  match f with
  | F_title => is_missing (PostRecord.title r)
  | F_score => is_missing (PostRecord.score r)
  | F_upvote_ratio => is_missing (PostRecord.upvote_ratio r)
  | F_num_comments => is_missing (PostRecord.num_comments r)
  | F_author => is_missing (PostRecord.author r)
  | F_url => is_missing (PostRecord.url r)
  | F_permalink => is_missing (PostRecord.permalink r)
  | F_created_utc => is_missing (PostRecord.created_utc r)
  | F_is_self => is_missing (PostRecord.is_self r)
  | F_selftext => is_missing (PostRecord.selftext r)
  | F_flair => is_missing (PostRecord.flair r)
  | F_domain => is_missing (PostRecord.domain r)
  end.

(** The post [p] with another score, and with another upvote ratio. *)
Definition with_score (v : option Z) (p : Submission) : Submission :=
  {| title := title p; score := v; upvote_ratio := upvote_ratio p;
     num_comments := num_comments p; author := author p; url := url p;
     permalink := permalink p; created_utc := created_utc p;
     is_self := is_self p; selftext := selftext p;
     link_flair_text := link_flair_text p; domain := domain p |}.

Definition with_upvote_ratio (v : option spec_float) (p : Submission)
  : Submission :=
  {| title := title p; score := score p; upvote_ratio := v;
     num_comments := num_comments p; author := author p; url := url p;
     permalink := permalink p; created_utc := created_utc p;
     is_self := is_self p; selftext := selftext p;
     link_flair_text := link_flair_text p; domain := domain p |}.

(** ** Effects on the files *)

(** A computation that leaves the file store as it found it. *)
Definition keeps_files {A} (m : M A) : Prop :=
  forall w, files (snd (m w)) = files w.

(** ** Sample records *)

Definition post_c : Submission :=
  {| title := Some "Untitled";
     score := Some 9%Z;
     upvote_ratio := None;
     num_comments := Some 2%Z;
     author := Some {| redditor_name := "bob" |};
     url := Some "https://example.org/c";
     permalink := None;
     created_utc := Some one_half;
     is_self := Some true;
     selftext := Some "body";
     link_flair_text := None;
     domain := Some "self.OpenAI" |}.

Definition rec_a : PostRecord.t := hot_record (VStr "MachineLearning") post_a.
Definition rec_a_found : PostRecord.t :=
  search_record (VStr "GPT-4") (VStr "OpenAI") post_a.
Definition rec_zero : PostRecord.t := hot_record (VStr "OpenAI") post_zero.
Definition rec_c : PostRecord.t :=
  search_record (VStr "GPT-4") (VStr "Artificial") post_c.

Definition merged : list PostRecord.t := [rec_a; rec_zero; rec_a_found; rec_c].

(** ** The effects of a fetch *)

(** The world after more lines were printed and more calls were made. *)
Definition grow (w : world) (ls : list line) (cs : list api_call) : world :=
  {| console := console w ++ ls;
     api_calls := api_calls w ++ cs;
     files := files w |}.

(** The exception a forum's call or iteration ends with, if any. *)
Definition failure_of (r : reply listing) : option exc :=
  match r with
  | Ok l => failure l
  | Raises e => Some e
  end.

(** The exception of the first forum of the list that fails. *)
Fixpoint first_failure (answer : pyval -> reply listing) (names : list pyval)
  : option exc :=
  match names with
  | [] => None
  | n :: rest =>
      match failure_of (answer n) with
      | Some e => Some e
      | None => first_failure answer rest
      end
  end.

(** The forums up to and including the first that fails. *)
Fixpoint visited (answer : pyval -> reply listing) (names : list pyval)
  : list pyval :=
  match names with
  | [] => []
  | n :: rest =>
      n :: match failure_of (answer n) with
           | Some _ => []
           | None => visited answer rest
           end
  end.

(** The text an [except] clause prints before the message, by class; none
    for a class outside [Exception]. *)
Definition error_label (c : exc_class) : option string :=
  match c with
  | PRAWException => Some "Reddit API error: "
  | ValueError => Some "Input validation error: "
  | FileNotFoundError => Some "File error: "
  | KeyboardInterrupt => None
  | TypeError | KeyError | OtherException => Some "Unexpected error: "
  end.

(** The calls one forum costs: the second is made only when the first
    answered. *)
Definition hot_calls (reddit : Reddit) (limit n : pyval) : list api_call :=
  match subreddit reddit n with
  | Raises _ => [CallSubreddit n]
  | Ok _ => [CallSubreddit n; CallHot n limit]
  end.

Definition search_calls (reddit : Reddit) (query limit n : pyval)
  : list api_call :=
  match subreddit reddit n with
  | Raises _ => [CallSubreddit n]
  | Ok _ => [CallSubreddit n; CallSearch n query limit "relevance"]
  end.

(** The lines one forum prints: the announcement once both calls answered,
    the count once the iteration ended. *)
Definition progress_lines (what : string) (limit : pyval) (r : reply listing)
    (n : pyval) : list line :=
  match r with
  | Raises _ => []
  | Ok l =>
      [Lit "Downloading "; Val limit; Lit what; Val n; Lit ("..." ++ nl)]
      :: match failure l with
         | Some _ => []
         | None =>
             [[Lit "Successfully downloaded ";
               Num (Z.of_nat (length (yielded l)));
               Lit " posts from "; Val n; Lit "!"]]
         end
  end.

(** What a fetch over [names] returns, and the line its handler prints. *)
Definition fetch_outcome (answer : pyval -> reply listing)
    (record_of : pyval -> Submission -> PostRecord.t) (names : list pyval)
  : reply pyobj :=
  match first_failure answer names with
  | None => Ok (OList (fetched answer record_of names))
  | Some e =>
      match error_label (exc_cls e) with
      | Some _ => Ok (OBool false)
      | None => Raises e
      end
  end.

Definition error_lines (answer : pyval -> reply listing) (names : list pyval)
  : list line :=
  match first_failure answer names with
  | None => []
  | Some e =>
      match error_label (exc_cls e) with
      | Some label => [[Lit label; Lit (exc_msg e)]]
      | None => []
      end
  end.

(** ** The columns of a table *)

Definition hot_columns : list string :=
  ["title"; "score"; "upvote_ratio"; "num_comments"; "author"; "subreddit";
   "url"; "permalink"; "created_utc"; "is_self"; "selftext"; "flair"; "domain"].

Definition has_search_query (r : PostRecord.t) : bool :=
  match PostRecord.search_query r with
  | Some _ => true
  | None => false
  end.

(** ** The start of the script *)

Definition env_file_path : string := "reddit.env".

(** The dict [dotenv_values] returns, read through [config.get(key)]: the
    value of the key, or [None]. *)
Definition config : Type := string -> option string.

(** The empty dict. *)
Definition no_config : config := fun _ => None.

(** The keyword arguments of [praw.Reddit(...)]. *)
Record credentials : Type := {
  client_id : option string;
  client_secret : option string;
  username : option string;
  password : option string;
  user_agent : option string
}.

(** The object [praw.Reddit(...)] returns: the handle the fetchers use, and
    what [reddit.user.me()] answers. *)
Record Session : Type := {
  session_reddit : Reddit;
  user_me : reply (option Redditor)
}.

(** How the answer of [reddit.user.me()] is formatted: a [Redditor] by its
    name. *)
Definition identity (o : option Redditor) : pyval :=
  match o with
  | Some r => VStr (redditor_name r)
  | None => VNone
  end.

(** The lines the script prints about the configuration file. *)
Definition config_lines (env_file : option config) : list line :=
  match env_file with
  | Some _ =>
      [[Lit "Environment variables loaded from "; Lit env_file_path; Lit "!"]]
  | None =>
      [[Lit "Error: '"; Lit env_file_path;
        Lit "' not found. Environment variables not loaded."];
       [Lit "Please ensure the 'reddit.env' file is in the specified path."]]
  end.

(** The whole script.  [env_file] is the content of [reddit.env] when the
    path exists; [praw_Reddit] is the client library's constructor. *)
Definition script (env_file : option config)
    (praw_Reddit : credentials -> reply Session) : M unit :=
  config <-
    match env_file with
    | Some c =>
        print [Lit "Environment variables loaded from "; Lit env_file_path;
               Lit "!"] ;;
        ret c
    | None =>
        print [Lit "Error: '"; Lit env_file_path;
               Lit "' not found. Environment variables not loaded."] ;;
        print [Lit "Please ensure the 'reddit.env' file is in the specified path."] ;;
        ret no_config
    end ;;
  reddit <- lift (praw_Reddit
                    {| client_id := config "REDDIT_CLIENT_ID";
                       client_secret := config "REDDIT_CLIENT_SECRET";
                       username := config "REDDIT_USERNAME";
                       password := config "REDDIT_PASSWORD";
                       user_agent := config "REDDIT_USER_AGENT" |}) ;;
  print [Lit "Reddit API authenticated successfully!"] ;;
  me <- lift (user_me reddit) ;;
  print [Lit "Connected as: "; Val (identity me)] ;;
  main (session_reddit reddit).

(** ** What the script hands to the client library *)

(** The dict the script reads its credentials from. *)
Definition config_of (env_file : option config) : config :=
  match env_file with
  | Some c => c
  | None => no_config
  end.

(** The five keys the script looks up. *)
Definition credentials_of (c : config) : credentials :=
  {| client_id := c "REDDIT_CLIENT_ID";
     client_secret := c "REDDIT_CLIENT_SECRET";
     username := c "REDDIT_USERNAME";
     password := c "REDDIT_PASSWORD";
     user_agent := c "REDDIT_USER_AGENT" |}.


(** ** More sample data *)

(** A client whose listings raise a [ValueError] of its own. *)
Definition picky_reddit : Reddit :=
  {| subreddit := fun _ =>
       Ok {| hot := fun _ => Raises (Exc ValueError "limit out of range");
             search := fun _ _ _ => answer_with [] |} |}.

(** A record list without a repeated permalink, and two lists that share
    one. *)
Definition rec_b : PostRecord.t := hot_record (VStr "MachineLearning") post_b.
Definition distinct_records : list PostRecord.t := [rec_a; rec_b; rec_c].
Definition hot_side : list PostRecord.t := [rec_a; rec_zero].
Definition search_side : list PostRecord.t := [rec_a_found; rec_c].

(** A constructor that refuses every credential set, one whose identity
    check fails, and one that hands out [steady_reddit]. *)
Definition refused : exc := Exc PRAWException "Required configuration setting missing".

Definition refusing_praw : credentials -> reply Session :=
  fun _ => Raises refused.

Definition unauthorized_praw : credentials -> reply Session :=
  fun _ => Ok {| session_reddit := steady_reddit;
                 user_me := Raises (Exc OtherException "received 401 HTTP response") |}.


Definition sample_config : config :=
  fun k => if String.eqb k "REDDIT_CLIENT_ID" then Some "abc" else None.


(** * Properties *)

(** ** Validation *)

Lemma bind_ok {A B} (m : M A) (k : A -> M B) w {a w'} :
  m w = (Ok a, w') -> bind m k w = k a w'.
Proof. intros H. unfold bind. now rewrite H. Qed.

Lemma bind_raises {A B} (m : M A) (k : A -> M B) w {e w'} :
  m w = (Raises e, w') -> bind m k w = (Raises e, w').
Proof. intros H. unfold bind. now rewrite H. Qed.

Lemma name_test_invalid (x : pyval) :
  negb (truthy x) || negb (isinstance_str x) = invalid_forum_name x.
Proof.
  destruct x as [| b | z | f | s | l | l]; try (destruct s); cbn;
    rewrite ?orb_true_r; reflexivity.
Qed.

Lemma name_check_loop (l : list pyval) (w : world) :
  for_each l (fun subreddit_name =>
      if negb (truthy subreddit_name) || negb (isinstance_str subreddit_name)
      then raise (Exc ValueError "Subreddit name must be a non-empty string")
      else ret tt) w
  = if existsb invalid_forum_name l
    then (Raises (Exc ValueError "Subreddit name must be a non-empty string"), w)
    else (Ok tt, w).
Proof.
  induction l as [|x rest IH]; [reflexivity|].
  cbn [for_each existsb]. unfold bind at 1.
  rewrite name_test_invalid.
  destruct (invalid_forum_name x); cbn; [reflexivity | apply IH].
Qed.

Lemma check_subreddit_names_rejects (v : pyval) (w : world) :
  invalid_forum_names v = true ->
  exists msg, check_subreddit_names v w = (Raises (Exc ValueError msg), w).
Proof.
  intros H. unfold check_subreddit_names.
  destruct v as [| b | z | f | s | l | l];
    try (cbn; rewrite ?orb_true_r; eexists; reflexivity).
  destruct l as [|x rest]; [eexists; reflexivity|].
  cbn [truthy Truthy_pyval Truthy_list isinstance_list negb orb items].
  rewrite name_check_loop. cbn [invalid_forum_names] in H. rewrite H.
  eexists; reflexivity.
Qed.

Lemma check_subreddit_names_accepts (v : pyval) (w : world) :
  invalid_forum_names v = false ->
  check_subreddit_names v w = (Ok tt, w).
Proof.
  intros H. unfold check_subreddit_names.
  destruct v as [| b | z | f | s | l | l]; try discriminate.
  destruct l as [|x rest]; [discriminate|].
  cbn [truthy Truthy_pyval Truthy_list isinstance_list negb orb items].
  rewrite name_check_loop. cbn [invalid_forum_names] in H. now rewrite H.
Qed.

Lemma check_limit_rejects (v : pyval) (w : world) :
  invalid_limit v = true ->
  check_limit v w = (Raises (Exc ValueError "Limit must be a positive integer"), w).
Proof.
  intros H. unfold check_limit.
  destruct v as [| b | z | f | s | l | l]; cbn in *; try reflexivity.
  - destruct b; [discriminate | reflexivity].
  - now rewrite H.
Qed.

Lemma check_limit_accepts (v : pyval) (w : world) :
  invalid_limit v = false -> check_limit v w = (Ok tt, w).
Proof.
  intros H. unfold check_limit.
  destruct v as [| b | z | f | s | l | l]; cbn in *; try discriminate.
  - destruct b; [reflexivity | discriminate].
  - now rewrite H.
Qed.

Lemma check_query_cases (q : pyval) (w : world) :
  check_query q w
  = if invalid_query q
    then (Raises (Exc ValueError "Query must be a non-empty string"), w)
    else (Ok tt, w).
Proof.
  unfold check_query.
  destruct q as [| b | z | f | s | l | l]; try (destruct s); cbn;
    rewrite ?orb_true_r; reflexivity.
Qed.

Example true_is_a_positive_integer :
  invalid_limit (VBool true) = false
  /\ check_limit (VBool true) w0 = (Ok tt, w0)
  /\ check_limit (VBool false) w0
     = (Raises (Exc ValueError "Limit must be a positive integer"), w0)
  /\ check_limit (VFloat one_half) w0
     = (Raises (Exc ValueError "Limit must be a positive integer"), w0).
Proof. repeat split. Qed.

Example tuple_of_names_is_refused :
  check_subreddit_names (VTuple [VStr "OpenAI"]) w0
  = (Raises (Exc ValueError "Subreddit names must be a non-empty list"), w0).
Proof. reflexivity. Qed.

(** Both fetchers stop at the first failed check, with the world as it
    was. *)
Lemma download_hot_posts_rejects reddit names limit w :
  invalid_input names limit = true ->
  exists msg,
    download_hot_posts reddit names limit w = (Raises (Exc ValueError msg), w).
Proof.
  unfold invalid_input, download_hot_posts. intros H.
  destruct (invalid_forum_names names) eqn:En.
  - destruct (check_subreddit_names_rejects names w En) as [msg Hm].
    exists msg. now apply bind_raises.
  - cbn in H. rewrite (bind_ok _ _ _ (check_subreddit_names_accepts names w En)).
    eexists. apply bind_raises. now apply check_limit_rejects.
Qed.

Lemma search_posts_rejects reddit query names limit w :
  invalid_input names limit = true ->
  exists msg,
    search_posts reddit query names limit w = (Raises (Exc ValueError msg), w).
Proof.
  unfold invalid_input, search_posts. intros H.
  pose proof (check_query_cases query w) as Hq.
  destruct (invalid_query query).
  { eexists. apply bind_raises. exact Hq. }
  rewrite (bind_ok _ _ _ Hq).
  destruct (invalid_forum_names names) eqn:En.
  - destruct (check_subreddit_names_rejects names w En) as [msg Hm].
    exists msg. now apply bind_raises.
  - cbn in H. rewrite (bind_ok _ _ _ (check_subreddit_names_accepts names w En)).
    eexists. apply bind_raises. now apply check_limit_rejects.
Qed.

(** ** The fetch loops *)

Lemma collect_fold {R} (f : Submission -> R) (ps : list Submission)
    (acc : list R) (c : Z) :
  fold_left (fun st post => (fst st ++ [f post], (snd st + 1)%Z)) ps (acc, c)
  = (acc ++ map f ps, (c + Z.of_nat (length ps))%Z).
Proof.
  revert acc c. induction ps as [|p ps IH]; intros acc c.
  - cbn. now rewrite app_nil_r, Z.add_0_r.
  - cbn [fold_left fst snd map length]. rewrite IH, <- app_assoc.
    f_equal. lia.
Qed.

Section FetchLoop.
Variable turn : list PostRecord.t -> pyval -> M (list PostRecord.t).
Variable answer : pyval -> reply listing.
Variable record_of : pyval -> Submission -> PostRecord.t.

(** One turn appends the records of the forum's posts, or raises. *)
Hypothesis turn_cases : forall acc n w,
  if completes (answer n)
  then exists w', turn acc n w
                  = (Ok (acc ++ map (record_of n) (posts_of (answer n))), w')
  else exists e w', turn acc n w = (Raises e, w').

Lemma loop_returns names acc w res w' :
  for_fold names turn acc w = (Ok res, w') ->
  res = acc ++ fetched answer record_of names.
Proof.
  revert acc w. induction names as [|n names IH]; intros acc w H.
  - cbn in H. inversion H. now rewrite app_nil_r.
  - cbn [for_fold] in H. unfold bind in H.
    pose proof (turn_cases acc n w) as T.
    destruct (completes (answer n)).
    + destruct T as [w1 T]. rewrite T in H.
      apply IH in H. subst res. cbn [fetched flat_map].
      now rewrite app_assoc.
    + destruct T as [e [w1 T]]. rewrite T in H. discriminate.
Qed.

Lemma loop_completes names acc w :
  (forall n, In n names -> completes (answer n) = true) ->
  exists w',
    for_fold names turn acc w
    = (Ok (acc ++ fetched answer record_of names), w').
Proof.
  revert acc w. induction names as [|n names IH]; intros acc w H.
  - exists w. cbn. now rewrite app_nil_r.
  - cbn [for_fold]. unfold bind.
    pose proof (turn_cases acc n w) as T.
    rewrite (H n (or_introl eq_refl)) in T. destruct T as [w1 T]. rewrite T.
    destruct (IH (acc ++ map (record_of n) (posts_of (answer n))) w1) as [w2 E].
    { intros m Hm. apply H. now right. }
    exists w2. rewrite E. cbn [fetched flat_map]. now rewrite app_assoc.
Qed.

Lemma fetched_length (limit : Z) names :
  (forall n, In n names ->
     (Z.of_nat (length (posts_of (answer n))) <= limit)%Z) ->
  (Z.of_nat (length (fetched answer record_of names))
   <= limit * Z.of_nat (length names))%Z.
Proof.
  induction names as [|n names IH]; intros H.
  - cbn. lia.
  - cbn [fetched flat_map length]. rewrite length_app, length_map.
    specialize (H n (or_introl eq_refl)) as Hn.
    assert (Z.of_nat (length (fetched answer record_of names))
            <= limit * Z.of_nat (length names))%Z as Hr.
    { apply IH. intros m Hm. apply H. now right. }
    unfold fetched in Hr. lia.
Qed.

Lemma fetched_in names r :
  In r (fetched answer record_of names) ->
  exists n post, In n names /\ In post (posts_of (answer n))
                 /\ r = record_of n post.
Proof.
  unfold fetched. rewrite in_flat_map. intros [n [Hn Hr]].
  apply in_map_iff in Hr. destruct Hr as [post [E Hp]].
  exists n, post. auto.
Qed.
End FetchLoop.

Lemma hot_turn_cases reddit limit acc n w :
  if completes (hot_listing reddit limit n)
  then exists w', hot_turn reddit limit acc n w
                  = (Ok (acc ++ map (hot_record n)
                                  (posts_of (hot_listing reddit limit n))), w')
  else exists e w', hot_turn reddit limit acc n w = (Raises e, w').
Proof.
  unfold hot_turn, hot_listing, bind, call, print, for_listing, ret, raise.
  destruct (subreddit reddit n) as [sub|e]; cbn; [|eauto].
  destruct (hot sub limit) as [l|e]; cbn; [|eauto].
  rewrite collect_fold.
  destruct (failure l) as [e|]; cbn; eauto.
Qed.

Lemma search_turn_cases reddit query limit acc n w :
  if completes (search_listing reddit query limit n)
  then exists w', search_turn reddit query limit acc n w
                  = (Ok (acc ++ map (search_record query n)
                                  (posts_of (search_listing reddit query limit n))),
                     w')
  else exists e w', search_turn reddit query limit acc n w = (Raises e, w').
Proof.
  unfold search_turn, search_listing, bind, call, print, for_listing, ret, raise.
  destruct (subreddit reddit n) as [sub|e]; cbn; [|eauto].
  destruct (search sub query limit "relevance") as [l|e]; cbn; [|eauto].
  rewrite collect_fold.
  destruct (failure l) as [e|]; cbn; eauto.
Qed.

(** ** What the fetchers return *)

Lemma fetch_handlers_cases (e : exc) (w : world) :
  match fetch_handlers e with
  | Some h => exists w', h w = (Ok (OBool false), w')
  | None => exc_cls e = KeyboardInterrupt
  end.
Proof.
  unfold fetch_handlers, bind, print, ret.
  destruct (exc_cls e); cbn; eauto.
Qed.

Lemma invalid_input_false names limit :
  invalid_input names limit = false ->
  invalid_forum_names names = false /\ invalid_limit limit = false.
Proof. unfold invalid_input. apply orb_false_elim. Qed.

Lemma download_hot_posts_valid reddit names limit w :
  invalid_input names limit = false ->
  download_hot_posts reddit names limit w
  = try_except
      (hot_posts <- for_fold (items names) (hot_turn reddit limit) [] ;;
       ret (OList hot_posts))
      fetch_handlers w.
Proof.
  intros H. apply invalid_input_false in H. destruct H as [Hn Hl].
  unfold download_hot_posts.
  rewrite (bind_ok _ _ _ (check_subreddit_names_accepts names w Hn)).
  now rewrite (bind_ok _ _ _ (check_limit_accepts limit w Hl)).
Qed.

Lemma search_posts_valid reddit query names limit w :
  invalid_query query = false ->
  invalid_input names limit = false ->
  search_posts reddit query names limit w
  = try_except
      (keyword_posts <-
         for_fold (items names) (search_turn reddit query limit) [] ;;
       ret (OList keyword_posts))
      fetch_handlers w.
Proof.
  intros Hq H. apply invalid_input_false in H. destruct H as [Hn Hl].
  unfold search_posts.
  pose proof (check_query_cases query w) as Q. rewrite Hq in Q.
  rewrite (bind_ok _ _ _ Q).
  rewrite (bind_ok _ _ _ (check_subreddit_names_accepts names w Hn)).
  now rewrite (bind_ok _ _ _ (check_limit_accepts limit w Hl)).
Qed.

Lemma search_posts_invalid_query reddit query names limit w :
  invalid_query query = true ->
  search_posts reddit query names limit w
  = (Raises (Exc ValueError "Query must be a non-empty string"), w).
Proof.
  intros Hq. unfold search_posts.
  pose proof (check_query_cases query w) as Q. rewrite Hq in Q.
  now apply bind_raises.
Qed.

(** A guarded loop returns the loop's list, or what a handler returns. *)
Lemma guarded_loop_returns turn answer record_of names w r w' :
  (forall acc n w0,
     if completes (answer n)
     then exists w1, turn acc n w0
                     = (Ok (acc ++ map (record_of n) (posts_of (answer n))), w1)
     else exists e w1, turn acc n w0 = (Raises e, w1)) ->
  try_except (posts <- for_fold names turn [] ;; ret (OList posts))
    fetch_handlers w = (Ok r, w') ->
  r = OBool false \/ r = OList (fetched answer record_of names).
Proof.
  intros T H. unfold try_except, bind, ret in H.
  destruct (for_fold names turn [] w) as [[res|e] w1] eqn:E.
  - inversion H; subst. right.
    now rewrite (loop_returns turn answer record_of T names [] w res w' E).
  - pose proof (fetch_handlers_cases e w1) as F.
    destruct (fetch_handlers e) as [h|]; [|discriminate].
    destruct F as [w2 F]. rewrite F in H. inversion H. now left.
Qed.

Lemma guarded_loop_completes turn answer record_of names w :
  (forall acc n w0,
     if completes (answer n)
     then exists w1, turn acc n w0
                     = (Ok (acc ++ map (record_of n) (posts_of (answer n))), w1)
     else exists e w1, turn acc n w0 = (Raises e, w1)) ->
  (forall n, In n names -> completes (answer n) = true) ->
  exists w',
    try_except (posts <- for_fold names turn [] ;; ret (OList posts))
      fetch_handlers w = (Ok (OList (fetched answer record_of names)), w').
Proof.
  intros T C.
  destruct (loop_completes turn answer record_of T names [] w C) as [w1 E].
  exists w1. unfold try_except, bind, ret. now rewrite E.
Qed.

Lemma download_hot_posts_returns reddit names limit w r w' :
  download_hot_posts reddit names limit w = (Ok r, w') ->
  r = OBool false
  \/ r = OList (fetched (hot_listing reddit limit) hot_record (items names)).
Proof.
  intros H. destruct (invalid_input names limit) eqn:V.
  - destruct (download_hot_posts_rejects reddit names limit w V) as [msg R].
    rewrite R in H. discriminate.
  - rewrite (download_hot_posts_valid reddit names limit w V) in H.
    eapply guarded_loop_returns; [|exact H].
    intros acc n w0. apply hot_turn_cases.
Qed.

Lemma search_posts_returns reddit query names limit w r w' :
  search_posts reddit query names limit w = (Ok r, w') ->
  r = OBool false
  \/ r = OList (fetched (search_listing reddit query limit)
                  (search_record query) (items names)).
Proof.
  intros H. destruct (invalid_input names limit) eqn:V.
  - destruct (search_posts_rejects reddit query names limit w V) as [msg R].
    rewrite R in H. discriminate.
  - destruct (invalid_query query) eqn:Q.
    + rewrite (search_posts_invalid_query reddit query names limit w Q) in H.
      discriminate.
    + rewrite (search_posts_valid reddit query names limit w Q V) in H.
      eapply guarded_loop_returns; [|exact H].
      intros acc n w0. apply search_turn_cases.
Qed.

(** ** Deduplication *)

Lemma same_key_eq (a b : option string) : same_key a b = true <-> a = b.
Proof.
  destruct a as [x|], b as [y|]; cbn; try (split; congruence).
  rewrite String.eqb_eq. split; congruence.
Qed.

Lemma same_key_seen (k : option string) (seen : list (option string)) :
  existsb (same_key k) seen = true <-> In k seen.
Proof.
  rewrite existsb_exists. split.
  - intros [x [Hx E]]. apply same_key_eq in E. now subst.
  - intros H. exists k. split; [assumption | now apply same_key_eq].
Qed.

Section FirstSeen.
Context {A K : Type}.
Variable eqb : K -> K -> bool.
Variable key : A -> K.

Lemma first_seen_fresh seen l :
  fresh_keys eqb key seen (first_seen eqb key seen l) = true.
Proof.
  revert seen. induction l as [|x rest IH]; intros seen; [reflexivity|].
  cbn [first_seen]. destruct (existsb (eqb (key x)) seen) eqn:E.
  - apply IH.
  - cbn [fresh_keys]. rewrite E. cbn. apply IH.
Qed.

Lemma first_seen_of_fresh seen l :
  fresh_keys eqb key seen l = true -> first_seen eqb key seen l = l.
Proof.
  revert seen. induction l as [|x rest IH]; intros seen H; [reflexivity|].
  cbn [fresh_keys] in H. apply andb_true_iff in H. destruct H as [H1 H2].
  cbn [first_seen]. apply negb_true_iff in H1. rewrite H1.
  f_equal. now apply IH.
Qed.

Lemma first_seen_idempotent seen l :
  first_seen eqb key seen (first_seen eqb key seen l)
  = first_seen eqb key seen l.
Proof. apply first_seen_of_fresh, first_seen_fresh. Qed.
End FirstSeen.

Lemma filter_implied {A} (p q : A -> bool) (l : list A) :
  (forall x, p x = true -> q x = true) ->
  filter p (filter q l) = filter p l.
Proof.
  intros H. induction l as [|x l IH]; [reflexivity|].
  cbn [filter]. destruct (q x) eqn:Q.
  - cbn [filter]. destruct (p x); now rewrite IH.
  - destruct (p x) eqn:P; [|exact IH].
    apply H in P. congruence.
Qed.

Lemma filter_both {A} (p q : A -> bool) (l : list A) :
  filter (fun x => q x && p x) l = filter p (filter q l).
Proof.
  induction l as [|x l IH]; [reflexivity|].
  cbn [filter]. destruct (q x); cbn [andb filter].
  - destruct (p x); now rewrite IH.
  - exact IH.
Qed.

(** The table's rows are the rows the specification describes. *)
Lemma first_seen_keep_first (seen : list (option string)) (l : list PostRecord.t) :
  first_seen same_key PostRecord.permalink seen l
  = filter (fun x => negb (existsb (same_key (PostRecord.permalink x)) seen))
      (keep_first_occurrence l).
Proof.
  revert seen. induction l as [|r rest IH]; intros seen; [reflexivity|].
  cbn [first_seen keep_first_occurrence filter].
  destruct (existsb (same_key (PostRecord.permalink r)) seen) eqn:E; cbn [negb].
  - rewrite IH. symmetry. apply filter_implied.
    intros x Hx. apply negb_true_iff. apply negb_true_iff in Hx.
    destruct (same_key (PostRecord.permalink x) (PostRecord.permalink r)) eqn:S;
      [|reflexivity].
    apply same_key_eq in S. rewrite S in Hx. congruence.
  - f_equal. rewrite IH, <- filter_both. apply filter_ext.
    intros x. cbn [existsb]. now rewrite negb_orb.
Qed.

Lemma drop_duplicates_keep_first (l : list PostRecord.t) :
  first_seen same_key PostRecord.permalink [] l = keep_first_occurrence l.
Proof.
  rewrite first_seen_keep_first. cbn [existsb negb].
  induction (keep_first_occurrence l) as [|x xs IH]; [reflexivity|].
  cbn [filter]. now rewrite IH.
Qed.

(** Among rows without a permalink only the first one stays. *)
Lemma first_seen_missing (seen : list (option string)) (l : list PostRecord.t) :
  filter missing_permalink (first_seen same_key PostRecord.permalink seen l)
  = if existsb (same_key None) seen then []
    else firstn 1 (filter missing_permalink l).
Proof.
  revert seen. induction l as [|r rest IH]; intros seen.
  - cbn. now destruct (existsb (same_key None) seen).
  - cbn [first_seen filter]. unfold missing_permalink at 2.
    destruct (PostRecord.permalink r) as [s|] eqn:P.
    + destruct (existsb (same_key (Some s)) seen) eqn:E.
      * apply IH.
      * cbn [filter]. unfold missing_permalink at 1. rewrite P.
        rewrite IH. reflexivity.
    + destruct (existsb (same_key None) seen) eqn:E.
      * rewrite IH. now rewrite E.
      * cbn [filter]. unfold missing_permalink at 1. rewrite P.
        rewrite IH. cbn [existsb same_key orb firstn]. reflexivity.
Qed.

(** ** The table of the persister *)

Lemma first_seen_label (k : string) (seen l : list string) :
  In k l -> ~ In k seen ->
  In k (first_seen String.eqb (fun x => x) seen l).
Proof.
  revert seen. induction l as [|x rest IH]; intros seen Hl Hs; [destruct Hl|].
  cbn [first_seen]. destruct (existsb (String.eqb x) seen) eqn:E.
  - apply IH; [|assumption]. destruct Hl as [->|Hl]; [|assumption].
    exfalso. apply Hs. apply existsb_exists in E. destruct E as [y [Hy E]].
    apply String.eqb_eq in E. now subst.
  - destruct (string_dec x k) as [->|N]; [now left|]. right.
    apply IH.
    + destruct Hl as [->|Hl]; [congruence | assumption].
    + intros [->|H]; [congruence | now apply Hs].
Qed.

Lemma permalink_is_a_column (r : PostRecord.t) (rest : list PostRecord.t) :
  existsb (String.eqb "permalink")
    (first_seen String.eqb (fun k => k) [] (flat_map record_keys (r :: rest)))
  = true.
Proof.
  apply existsb_exists. exists "permalink". split; [|apply String.eqb_refl].
  apply first_seen_label; [|intros []].
  cbn [flat_map]. apply in_or_app. left. unfold record_keys.
  apply in_or_app. left. cbn. tauto.
Qed.

Lemma save_to_csv_falsy (all_posts : pyobj) (filename : string) (w : world) :
  truthy all_posts = false ->
  save_to_csv all_posts filename w
  = (Ok None, {| console := console w ++ [[Lit "No posts to save."]];
                 api_calls := api_calls w;
                 files := files w |}).
Proof.
  intros H. unfold save_to_csv. rewrite H. reflexivity.
Qed.

Lemma save_to_csv_records (recs : list PostRecord.t) (filename : string)
    (w : world) :
  recs <> [] ->
  exists w',
    save_to_csv (OList recs) filename w = (Ok (Some (table_of recs)), w')
    /\ files w' = write_file filename (csv_of (table_of recs)) (files w)
    /\ api_calls w' = api_calls w.
Proof.
  intros N. destruct recs as [|r rest]; [congruence|].
  unfold save_to_csv.
  change (truthy (OList (r :: rest))) with true. cbn [negb].
  unfold bind, lift, pd_DataFrame, drop_duplicates.
  cbn [df_columns df_rows]. rewrite permalink_is_a_column.
  eexists. split; [reflexivity|]. split; reflexivity.
Qed.

(** ** Input validation (C1, C2) *)

(** C2: for every invalid input (forum-name argument that is not a list, is
    the empty list or holds a name that is not a non-empty string; limit
    that is not an integer or is zero or negative) each fetcher raises a
    [ValueError], and the world it leaves is the world it found: no call on
    the API client was made. *)
Theorem invalid_input_raises_before_any_call :
  forall reddit query subreddit_names limit w,
    invalid_input subreddit_names limit = true ->
    (exists msg,
        download_hot_posts reddit subreddit_names limit w
        = (Raises (Exc ValueError msg), w))
    /\ (exists msg,
           search_posts reddit query subreddit_names limit w
           = (Raises (Exc ValueError msg), w))
    /\ api_calls (snd (download_hot_posts reddit subreddit_names limit w))
       = api_calls w
    /\ api_calls (snd (search_posts reddit query subreddit_names limit w))
       = api_calls w.
Proof.
  intros reddit query names limit w H.
  destruct (download_hot_posts_rejects reddit names limit w H) as [m1 E1].
  destruct (search_posts_rejects reddit query names limit w H) as [m2 E2].
  rewrite E1, E2. cbn [snd]. eauto 6.
Qed.

Lemma invalid_input_raises_before_any_call_witness :
  invalid_input (VList [VStr "OpenAI"; VStr ""]) (VInt 5) = true
  /\ (exists msg,
         download_hot_posts steady_reddit (VList [VStr "OpenAI"; VStr ""])
           (VInt 5) w0
         = (Raises (Exc ValueError msg), w0)).
Proof.
  split; [reflexivity|].
  apply (invalid_input_raises_before_any_call steady_reddit (VStr "GPT-4")
           (VList [VStr "OpenAI"; VStr ""]) (VInt 5) w0).
  reflexivity.
Defined.

(** C1 (defect in the code): on the empty forum list each fetcher raises the
    [ValueError] to its caller with the world untouched; nothing is printed
    and [False] is not returned, because the checks stand before the [try]
    whose [except ValueError] clause prints the validation message. *)
Theorem validation_error_escapes_fetcher :
  forall reddit w,
    download_hot_posts reddit (VList []) (VInt 10) w
    = (Raises (Exc ValueError "Subreddit names must be a non-empty list"), w)
    /\ search_posts reddit (VStr "GPT-4") (VList []) (VInt 10) w
       = (Raises (Exc ValueError "Subreddit names must be a non-empty list"), w).
Proof. intros reddit w. split; reflexivity. Qed.

(** ** Length and order of a fetch (C5) *)

(** C5: for a valid forum list and limit (and, for the search, a valid
    query) and a client that yields at most [limit] posts per call, a list
    returned by a fetcher holds the records forum by forum in list order and
    within a forum in fetch order, and is at most limit x number of forums
    long; and a fetcher does return a list when every call completes. *)
Theorem fetch_length_and_order :
  forall reddit query subreddit_names limit w,
    invalid_input subreddit_names limit = false ->
    invalid_query query = false ->
    within_limit limit (hot_listing reddit limit) subreddit_names ->
    within_limit limit (search_listing reddit query limit) subreddit_names ->
    (forall recs w',
        download_hot_posts reddit subreddit_names limit w = (Ok (OList recs), w') ->
        in_fetch_order hot_record (hot_listing reddit limit) subreddit_names recs
        /\ at_most_limit_per_forum limit subreddit_names recs)
    /\ (forall recs w',
           search_posts reddit query subreddit_names limit w
           = (Ok (OList recs), w') ->
           in_fetch_order (search_record query)
             (search_listing reddit query limit) subreddit_names recs
           /\ at_most_limit_per_forum limit subreddit_names recs)
    /\ (all_complete (hot_listing reddit limit) subreddit_names ->
        exists recs w',
          download_hot_posts reddit subreddit_names limit w
          = (Ok (OList recs), w'))
    /\ (all_complete (search_listing reddit query limit) subreddit_names ->
        exists recs w',
          search_posts reddit query subreddit_names limit w
          = (Ok (OList recs), w')).
Proof.
  intros reddit query names limit w V Q Lh Ls. repeat split.
  - apply download_hot_posts_returns in H. destruct H as [H|H]; [discriminate|].
    now inversion H.
  - apply download_hot_posts_returns in H. destruct H as [H|H]; [discriminate|].
    inversion H. apply fetched_length. exact Lh.
  - apply search_posts_returns in H. destruct H as [H|H]; [discriminate|].
    now inversion H.
  - apply search_posts_returns in H. destruct H as [H|H]; [discriminate|].
    inversion H. apply fetched_length. exact Ls.
  - intros C. rewrite (download_hot_posts_valid reddit names limit w V).
    destruct (guarded_loop_completes (hot_turn reddit limit)
                (hot_listing reddit limit) hot_record (items names) w) as [w' E].
    + intros acc n w1. apply hot_turn_cases.
    + exact C.
    + eauto.
  - intros C. rewrite (search_posts_valid reddit query names limit w Q V).
    destruct (guarded_loop_completes (search_turn reddit query limit)
                (search_listing reddit query limit) (search_record query)
                (items names) w) as [w' E].
    + intros acc n w1. apply search_turn_cases.
    + exact C.
    + eauto.
Qed.

Lemma fetch_length_and_order_witness :
  exists recs w',
    download_hot_posts steady_reddit two_forums (VInt 2) w0 = (Ok (OList recs), w')
    /\ in_fetch_order hot_record (hot_listing steady_reddit (VInt 2)) two_forums recs
    /\ at_most_limit_per_forum (VInt 2) two_forums recs.
Proof.
  assert (within_limit (VInt 2) (hot_listing steady_reddit (VInt 2)) two_forums)
    as Lh by (intros n _; cbn; lia).
  assert (within_limit (VInt 2)
            (search_listing steady_reddit (VStr "GPT-4") (VInt 2)) two_forums)
    as Ls by (intros n _; cbn; lia).
  destruct (fetch_length_and_order steady_reddit (VStr "GPT-4") two_forums
              (VInt 2) w0 eq_refl eq_refl Lh Ls)
    as [A [_ [R _]]].
  destruct (R (fun _ _ => eq_refl)) as [recs [w' E]].
  exists recs, w'. split; [exact E|]. exact (A recs w' E).
Defined.

(** ** Caller-supplied fields (C6) *)

(** C6: when a fetcher returns a list, every record in it was built from a
    post yielded for one forum [n] of the list, and its [subreddit] field is
    that [n]; in a search result the [search_query] field is the query
    passed in.  Both fields are the same whatever post the record was built
    from. *)
Theorem records_carry_caller_constants :
  forall reddit query subreddit_names limit w recs w',
    (download_hot_posts reddit subreddit_names limit w = (Ok (OList recs), w') ->
     forall r, In r recs ->
       exists n post,
         In n (items subreddit_names)
         /\ In post (posts_of (hot_listing reddit limit n))
         /\ r = hot_record n post
         /\ PostRecord.subreddit r = n)
    /\ (search_posts reddit query subreddit_names limit w = (Ok (OList recs), w') ->
        forall r, In r recs ->
          exists n post,
            In n (items subreddit_names)
            /\ In post (posts_of (search_listing reddit query limit n))
            /\ r = search_record query n post
            /\ PostRecord.subreddit r = n
            /\ PostRecord.search_query r = Some query)
    /\ (forall n p p',
           PostRecord.subreddit (hot_record n p)
           = PostRecord.subreddit (hot_record n p')
           /\ PostRecord.subreddit (search_record query n p)
              = PostRecord.subreddit (search_record query n p')
           /\ PostRecord.search_query (search_record query n p)
              = PostRecord.search_query (search_record query n p')).
Proof.
  intros reddit query names limit w recs w'. repeat split.
  - intros H r Hr.
    apply download_hot_posts_returns in H. destruct H as [H|H]; [discriminate|].
    inversion H; subst recs. apply fetched_in in Hr.
    destruct Hr as [n [post [Hn [Hp E]]]]. exists n, post.
    repeat split; try assumption. now subst r.
  - intros H r Hr.
    apply search_posts_returns in H. destruct H as [H|H]; [discriminate|].
    inversion H; subst recs. apply fetched_in in Hr.
    destruct Hr as [n [post [Hn [Hp E]]]]. exists n, post.
    repeat split; try assumption; now subst r.
Qed.

Lemma records_carry_caller_constants_witness :
  exists recs w',
    search_posts steady_reddit (VStr "GPT-4") two_forums (VInt 2) w0
    = (Ok (OList recs), w')
    /\ forall r, In r recs ->
         PostRecord.search_query r = Some (VStr "GPT-4")
         /\ In (PostRecord.subreddit r) (items two_forums).
Proof.
  destruct (search_posts steady_reddit (VStr "GPT-4") two_forums (VInt 2) w0)
    as [[[ | b | z | recs] | e] w'] eqn:E;
    try (vm_compute in E; discriminate).
  exists recs, w'. split; [reflexivity|].
  intros r Hr.
  destruct (records_carry_caller_constants steady_reddit (VStr "GPT-4")
              two_forums (VInt 2) w0 recs w') as [_ [S _]].
  destruct (S E r Hr) as [n [post [Hn [_ [_ [Es Eq]]]]]].
  split; [exact Eq | now rewrite Es].
Defined.

(** ** Truncation of the text (C7) *)

Lemma slice_to_length (n : nat) (s : string) :
  String.length (slice_to n s) <= n.
Proof.
  unfold slice_to. revert s. induction n as [|n IH]; intros s.
  - destruct s; cbn; lia.
  - destruct s as [|c s]; cbn; [lia|]. specialize (IH s). lia.
Qed.

Lemma slice_to_prefix (n : nat) (s : string) :
  String.prefix (slice_to n s) s = true.
Proof.
  unfold slice_to. revert s. induction n as [|n IH]; intros s.
  - destruct s; reflexivity.
  - destruct s as [|c s]; cbn; [reflexivity|].
    destruct (ascii_dec c c); [apply IH | congruence].
Qed.

Lemma selftext_field_some (x : option string) (t : string) :
  selftext_field x = Some t ->
  exists s, x = Some s /\ t = slice_to 500 s.
Proof.
  unfold selftext_field. destruct x as [s|]; cbn.
  - destruct (truthy s); [|discriminate]. intros H. inversion H. eauto.
  - discriminate.
Qed.

(** C7: when the [selftext] field of a record is present, it is at most 500
    characters long and a prefix of the [selftext] of the post the record
    was built from; this holds for both fetchers. *)
Theorem selftext_truncated_prefix :
  forall query n post t,
    PostRecord.selftext (hot_record n post) = Some t
    \/ PostRecord.selftext (search_record query n post) = Some t ->
    String.length t <= 500
    /\ exists s, selftext post = Some s /\ String.prefix t s = true.
Proof.
  intros query n post t H.
  assert (selftext_field (selftext post) = Some t) as F
      by (destruct H as [H|H]; exact H).
  apply selftext_field_some in F. destruct F as [s [Es Et]]. subst t.
  split; [apply slice_to_length|].
  exists s. split; [exact Es | apply slice_to_prefix].
Qed.

Lemma selftext_truncated_prefix_witness :
  PostRecord.selftext (hot_record (VStr "OpenAI") post_a) = Some "hello"
  /\ String.length "hello" <= 500
  /\ exists s, selftext post_a = Some s /\ String.prefix "hello" s = true.
Proof.
  split; [reflexivity|].
  apply (selftext_truncated_prefix (VStr "GPT-4") (VStr "OpenAI") post_a "hello").
  left. reflexivity.
Defined.

(** ** False values become the missing marker (C9) *)

Lemma or_none_text (o : option string) :
  falsy_text o = true -> or_none o = None.
Proof. destruct o as [[|c s]|]; cbn; congruence. Qed.

Lemma or_none_int (o : option Z) : falsy_int o = true -> or_none o = None.
Proof.
  destruct o as [z|]; [|reflexivity]. cbn [falsy_int]. intros H.
  unfold or_none, truthy, Truthy_option, truthy, Truthy_Z. now rewrite H.
Qed.

Lemma or_none_float (o : option spec_float) :
  falsy_float o = true -> or_none o = None.
Proof. destruct o as [[]|]; cbn; congruence. Qed.

Lemma or_none_bool (o : option bool) : falsy_bool o = true -> or_none o = None.
Proof. destruct o as [[]|]; cbn; congruence. Qed.

Lemma or_none_object (o : option Redditor) :
  falsy_object o = true -> or_none o = None.
Proof. destruct o; cbn; congruence. Qed.

Lemma selftext_field_falsy (o : option string) :
  falsy_text o = true -> selftext_field o = None.
Proof. destruct o as [[|c s]|]; cbn; congruence. Qed.

(** C9: a field of a record is the missing marker whenever the attribute it
    is read from is a false value (absent, empty text, zero, [False]), for
    both fetchers; so a post with score 0, or with upvote ratio 0.0, gives
    the very record the same post gives without a score, or without a
    ratio. *)
Theorem falsy_source_values_are_missing :
  forall f query n post,
    (source_falsy f post = true ->
     record_missing f (hot_record n post) = true
     /\ record_missing f (search_record query n post) = true)
    /\ hot_record n (with_score (Some 0%Z) post)
       = hot_record n (with_score None post)
    /\ search_record query n (with_score (Some 0%Z) post)
       = search_record query n (with_score None post)
    /\ hot_record n (with_upvote_ratio (Some (S754_zero false)) post)
       = hot_record n (with_upvote_ratio None post)
    /\ search_record query n (with_upvote_ratio (Some (S754_zero false)) post)
       = search_record query n (with_upvote_ratio None post).
Proof.
  intros f query n post. split; [|repeat split].
  intros H.
  assert (forall r,
             (PostRecord.title r, PostRecord.score r, PostRecord.upvote_ratio r,
              PostRecord.num_comments r, PostRecord.author r, PostRecord.url r)
             = (or_none (title post), or_none (score post),
                or_none (upvote_ratio post), or_none (num_comments post),
                or_none (author post), or_none (url post)) ->
             (PostRecord.permalink r, PostRecord.created_utc r,
              PostRecord.is_self r, PostRecord.selftext r, PostRecord.flair r,
              PostRecord.domain r)
             = (or_none (permalink post), or_none (created_utc post),
                or_none (is_self post), selftext_field (selftext post),
                or_none (link_flair_text post), or_none (domain post)) ->
             record_missing f r = true) as R.
  { intros r E1 E2. inversion E1. inversion E2.
    destruct f; cbn [source_falsy] in H; cbn [record_missing];
      repeat match goal with E : _ = _ |- _ => rewrite E; clear E end;
      first [ rewrite (or_none_text _ H) | rewrite (or_none_int _ H)
            | rewrite (or_none_float _ H) | rewrite (or_none_bool _ H)
            | rewrite (or_none_object _ H) | rewrite (selftext_field_falsy _ H) ];
      reflexivity. }
  split; apply R; reflexivity.
Qed.

Lemma falsy_source_values_are_missing_witness :
  source_falsy F_score post_zero = true
  /\ record_missing F_score (hot_record (VStr "OpenAI") post_zero) = true.
Proof.
  split; [reflexivity|].
  apply (falsy_source_values_are_missing F_score (VStr "GPT-4")
           (VStr "OpenAI") post_zero).
  reflexivity.
Defined.

(** ** The persister (C4, C8, C10) *)

Lemma read_after_write (filename : string) (c : csv_file)
    (fs : list (string * csv_file)) :
  read_file filename (write_file filename c fs) = Some c.
Proof.
  unfold read_file, write_file. cbn [find fst]. now rewrite String.eqb_refl.
Qed.

(** *** Rows and the records they were built from *)

Lemma first_seen_map {A B K} (eqb : K -> K -> bool) (key : B -> K)
    (f : A -> B) (seen : list K) (l : list A) :
  first_seen eqb key seen (map f l)
  = map f (first_seen eqb (fun x => key (f x)) seen l).
Proof.
  revert seen. induction l as [|x rest IH]; intros seen; [reflexivity|].
  cbn [map first_seen]. destruct (existsb (eqb (key (f x))) seen).
  - apply IH.
  - cbn [map]. now rewrite IH.
Qed.

Lemma first_seen_enumerate {A K} (eqb : K -> K -> bool) (key : A -> K)
    (seen : list K) (i : nat) (l : list A) :
  map snd (first_seen eqb (fun p => key (snd p)) seen (enumerate i l))
  = first_seen eqb key seen l.
Proof.
  revert seen i. induction l as [|x rest IH]; intros seen i; [reflexivity|].
  cbn [enumerate first_seen snd]. destruct (existsb (eqb (key x)) seen).
  - apply IH.
  - cbn [map snd]. now rewrite IH.
Qed.

Lemma first_seen_in {A K} (eqb : K -> K -> bool) (key : A -> K)
    (seen : list K) (l : list A) (x : A) :
  In x (first_seen eqb key seen l) ->
  In x l /\ existsb (eqb (key x)) seen = false.
Proof.
  revert seen. induction l as [|y rest IH]; intros seen H; [destruct H|].
  cbn [first_seen] in H. destruct (existsb (eqb (key y)) seen) eqn:E.
  - destruct (IH _ H) as [I S]. split; [now right | exact S].
  - destruct H as [<-|H]; [split; [now left | exact E]|].
    destruct (IH _ H) as [I S]. split; [now right|].
    cbn [existsb] in S. apply orb_false_elim in S. tauto.
Qed.

Lemma enumerate_in {A} (i : nat) (l : list A) (j : nat) (x : A) :
  In (j, x) (enumerate i l) -> i <= j /\ nth_error l (j - i) = Some x.
Proof.
  revert i. induction l as [|y rest IH]; intros i H; [destruct H|].
  cbn [enumerate] in H. destruct H as [E|H].
  - inversion E; subst. rewrite Nat.sub_diag. split; [lia | reflexivity].
  - destruct (IH _ H) as [L N]. split; [lia|].
    replace (j - i) with (S (j - S i)) by lia. exact N.
Qed.

Lemma enumerate_fst {A} (i : nat) (l : list A) :
  map fst (enumerate i l) = seq i (length l).
Proof.
  revert i. induction l as [|y rest IH]; intros i; [reflexivity|].
  cbn [enumerate map fst length seq]. now rewrite IH.
Qed.

Lemma enumerate_snd {A} (i : nat) (l : list A) : map snd (enumerate i l) = l.
Proof.
  revert i. induction l as [|y rest IH]; intros i; [reflexivity|].
  cbn [enumerate map snd]. now rewrite IH.
Qed.

(** The positions and records the duplicate removal keeps. *)
Lemma table_of_rows (recs : list PostRecord.t) :
  df_rows (table_of recs)
  = map row_of
      (first_seen same_key (fun p => PostRecord.permalink (snd p)) []
         (enumerate 0 recs)).
Proof.
  exact (first_seen_map same_key row_permalink row_of [] (enumerate 0 recs)).
Qed.

Lemma table_of_permalinks (recs : list PostRecord.t) :
  map row_permalink (df_rows (table_of recs))
  = map PostRecord.permalink (keep_first_occurrence recs).
Proof.
  rewrite table_of_rows, <- drop_duplicates_keep_first.
  rewrite <- (first_seen_enumerate same_key PostRecord.permalink [] 0 recs).
  rewrite !map_map. reflexivity.
Qed.

Lemma table_of_sources (recs : list PostRecord.t) :
  map (source_of recs) (df_rows (table_of recs))
  = map Some (keep_first_occurrence recs).
Proof.
  rewrite table_of_rows, <- drop_duplicates_keep_first.
  rewrite <- (first_seen_enumerate same_key PostRecord.permalink [] 0 recs).
  rewrite !map_map. apply map_ext_in. intros [j r] H.
  apply first_seen_in in H. destruct H as [H _].
  apply enumerate_in in H. destruct H as [_ H].
  unfold source_of, row_of. cbn [row_label fst snd].
  now rewrite Nat.sub_0_r in H.
Qed.

Lemma table_of_length (recs : list PostRecord.t) :
  length (df_rows (table_of recs)) = length (keep_first_occurrence recs).
Proof.
  rewrite <- (length_map row_permalink), table_of_permalinks.
  apply length_map.
Qed.

Lemma keep_first_nonempty (recs : list PostRecord.t) :
  recs <> [] -> keep_first_occurrence recs <> [].
Proof. destruct recs; [congruence | discriminate]. Qed.

Lemma keep_first_idempotent (recs : list PostRecord.t) :
  keep_first_occurrence (keep_first_occurrence recs)
  = keep_first_occurrence recs.
Proof.
  rewrite <- !drop_duplicates_keep_first. apply first_seen_idempotent.
Qed.

(** A kept position is the first with its key. *)
Lemma kept_position_is_first (seen : list (option string)) (i : nat)
    (l : list PostRecord.t) (j : nat) (r : PostRecord.t) :
  In (j, r) (first_seen same_key (fun p => PostRecord.permalink (snd p)) seen
               (enumerate i l)) ->
  forall j' r', i <= j' -> j' < j -> nth_error l (j' - i) = Some r' ->
                PostRecord.permalink r' <> PostRecord.permalink r.
Proof.
  revert seen i. induction l as [|x rest IH]; intros seen i H j' r' L U N;
    [destruct H|].
  cbn [enumerate first_seen snd] in H.
  destruct (existsb (same_key (PostRecord.permalink x)) seen) eqn:E.
  - destruct (Nat.eq_dec j' i) as [->|D].
    + rewrite Nat.sub_diag in N. cbn in N. inversion N; subst r'.
      apply first_seen_in in H. destruct H as [_ S]. cbn [snd] in S.
      intros Q. rewrite Q in E. congruence.
    + replace (j' - i) with (S (j' - S i)) in N by lia. cbn in N.
      apply (IH _ _ H j' r'); [lia | exact U | exact N].
  - destruct H as [Q|H]; [inversion Q; subst; lia|].
    destruct (Nat.eq_dec j' i) as [->|D].
    + rewrite Nat.sub_diag in N. cbn in N. inversion N; subst r'.
      apply first_seen_in in H. destruct H as [_ S]. cbn [snd existsb] in S.
      apply orb_false_elim in S. destruct S as [S _].
      intros Q. rewrite Q in S.
      assert (same_key (PostRecord.permalink r) (PostRecord.permalink r) = true)
        as R by now apply same_key_eq.
      congruence.
    + replace (j' - i) with (S (j' - S i)) in N by lia. cbn in N.
      apply (IH _ _ H j' r'); [lia | exact U | exact N].
Qed.

Lemma table_of_first (recs : list PostRecord.t) (x : row) :
  In x (df_rows (table_of recs)) -> first_with_its_permalink recs x.
Proof.
  rewrite table_of_rows. intros H. apply in_map_iff in H.
  destruct H as [[j r] [<- H]]. exists r.
  pose proof (kept_position_is_first [] 0 recs j r H) as F.
  apply first_seen_in in H. destruct H as [H _].
  apply enumerate_in in H. destruct H as [_ N]. rewrite Nat.sub_0_r in N.
  unfold source_of, row_of. cbn [row_label row_permalink fst snd].
  repeat split; [exact N|].
  intros j' r' U N'. apply (F j' r'); [lia | exact U|].
  now rewrite Nat.sub_0_r.
Qed.

Lemma filter_map_commute {A B} (p : B -> bool) (f : A -> B) (l : list A) :
  filter p (map f l) = map f (filter (fun x => p (f x)) l).
Proof.
  induction l as [|x rest IH]; [reflexivity|].
  cbn [map filter]. destruct (p (f x)); cbn [map]; now rewrite IH.
Qed.

(** C4: the table the persister builds from a non-empty list holds one row
    for the first record of every permalink, in input order: the rows'
    labels point at exactly these records and the rows carry their
    permalinks.  Running the persister again on the de-duplicated records
    gives a table with the same row count and the same permalinks, and
    running it again on the same list gives the same table.  (On the empty
    list the persister builds no table.) *)
Theorem persister_deduplication_idempotent :
  forall recs filename w,
    (recs = [] -> fst (save_to_csv (OList recs) filename w) = Ok None)
    /\ (recs <> [] ->
        exists df w1 df' w2,
          save_to_csv (OList recs) filename w = (Ok (Some df), w1)
          /\ map (source_of recs) (df_rows df)
             = map Some (keep_first_occurrence recs)
          /\ map row_permalink (df_rows df)
             = map PostRecord.permalink (keep_first_occurrence recs)
          /\ save_to_csv (OList (keep_first_occurrence recs)) filename w1
             = (Ok (Some df'), w2)
          /\ length (df_rows df') = length (df_rows df)
          /\ len df' = len df
          /\ map row_permalink (df_rows df') = map row_permalink (df_rows df)
          /\ fst (save_to_csv (OList recs) filename w1) = Ok (Some df)).
Proof.
  intros recs filename w. split.
  - intros ->. reflexivity.
  - intros N.
    destruct (save_to_csv_records recs filename w N) as [w1 [E1 _]].
    destruct (save_to_csv_records (keep_first_occurrence recs) filename w1
                (keep_first_nonempty recs N)) as [w2 [E2 _]].
    destruct (save_to_csv_records recs filename w1 N) as [w3 [E3 _]].
    exists (table_of recs), w1, (table_of (keep_first_occurrence recs)), w2.
    assert (length (df_rows (table_of (keep_first_occurrence recs)))
            = length (df_rows (table_of recs))) as L.
    { now rewrite !table_of_length, keep_first_idempotent. }
    repeat split; try assumption.
    + apply table_of_sources.
    + apply table_of_permalinks.
    + unfold len. now rewrite L.
    + now rewrite !table_of_permalinks, keep_first_idempotent.
    + now rewrite E3.
Qed.

(** C8: on the empty list and on [None] the persister prints its notice,
    returns [None] and leaves the files and the API client untouched; on a
    non-empty list it returns the de-duplicated table (one row for the first
    record of every permalink, in input order), and the named file then
    holds that table: its columns as the header row and one line per
    row. *)
Theorem persister_skips_empty_writes_nonempty :
  forall filename w,
    (forall all_posts,
        all_posts = OList [] \/ all_posts = ONone ->
        save_to_csv all_posts filename w
        = (Ok None, {| console := console w ++ [[Lit "No posts to save."]];
                       api_calls := api_calls w;
                       files := files w |}))
    /\ (forall recs,
           recs <> [] ->
           exists df w',
             save_to_csv (OList recs) filename w = (Ok (Some df), w')
             /\ map (source_of recs) (df_rows df)
                = map Some (keep_first_occurrence recs)
             /\ map row_permalink (df_rows df)
                = map PostRecord.permalink (keep_first_occurrence recs)
             /\ read_file filename (files w')
                = Some {| csv_header := df_columns df; csv_rows := df_rows df |}).
Proof.
  intros filename w. split.
  - intros all_posts [-> | ->]; reflexivity.
  - intros recs N.
    destruct (save_to_csv_records recs filename w N) as [w' [E [F _]]].
    exists (table_of recs), w'. repeat split.
    + exact E.
    + apply table_of_sources.
    + apply table_of_permalinks.
    + rewrite F. apply read_after_write.
Qed.

(** C10: when two or more records of the input have no permalink, the table
    has exactly one row without a permalink, and it is the row built from
    the first of these records, whatever the other fields of these records
    hold: its label is the position of that record, and no record before it
    lacks a permalink. *)
Theorem missing_permalinks_collapse_to_first :
  forall recs filename w,
    2 <= length (filter missing_permalink recs) ->
    exists first others df w' x,
      filter missing_permalink recs = first :: others
      /\ save_to_csv (OList recs) filename w = (Ok (Some df), w')
      /\ filter row_missing_permalink (df_rows df) = [x]
      /\ source_of recs x = Some first
      /\ (forall j r, j < row_label x -> nth_error recs j = Some r ->
                      missing_permalink r = false).
Proof.
  intros recs filename w H.
  destruct (filter missing_permalink recs) as [|first others] eqn:F;
    [cbn in H; lia|].
  assert (recs <> []) as N by (intros ->; discriminate).
  destruct (save_to_csv_records recs filename w N) as [w' [E _]].
  pose proof (table_of_rows recs) as R.
  remember (first_seen same_key (fun p => PostRecord.permalink (snd p)) []
              (enumerate 0 recs)) as kept eqn:K.
  assert (map snd (filter (fun p => missing_permalink (snd p)) kept) = [first])
    as M.
  { rewrite <- (filter_map_commute missing_permalink snd), K.
    rewrite first_seen_enumerate, first_seen_missing, F. reflexivity. }
  destruct (filter (fun p => missing_permalink (snd p)) kept)
    as [|[j r] [|q qs]] eqn:Q; try discriminate.
  cbn in M. inversion M; subst r.
  assert (In (j, first) kept) as I.
  { assert (In (j, first) (filter (fun p => missing_permalink (snd p)) kept))
      as I' by (rewrite Q; now left).
    apply filter_In in I'. tauto. }
  assert (missing_permalink first = true) as Mf.
  { assert (In first (filter missing_permalink recs)) as I'
      by (rewrite F; now left).
    apply filter_In in I'. tauto. }
  exists first, others, (table_of recs), w', (row_of (j, first)).
  repeat split.
  - exact E.
  - rewrite R.
    change row_missing_permalink
      with (fun x => match row_permalink x with None => true | Some _ => false end).
    rewrite (filter_map_commute _ row_of).
    change (fun x : nat * PostRecord.t =>
              match row_permalink (row_of x) with
              | Some _ => false
              | None => true
              end)
      with (fun p : nat * PostRecord.t => missing_permalink (snd p)).
    now rewrite Q.
  - rewrite K in I. apply first_seen_in in I. destruct I as [I _].
    apply enumerate_in in I. destruct I as [_ I].
    rewrite Nat.sub_0_r in I. exact I.
  - intros j' r' U N'. cbn [row_of row_label fst] in U.
    rewrite K in I.
    pose proof (kept_position_is_first [] 0 recs j first I j' r') as P.
    rewrite Nat.sub_0_r in P. specialize (P (Nat.le_0_l _) U N').
    unfold missing_permalink in *.
    destruct (PostRecord.permalink first); [discriminate|].
    destruct (PostRecord.permalink r'); [reflexivity | congruence].
Qed.

(** ** The fetchers write no file *)

Create HintDb files_db.

Lemma keeps_files_ret {A} (a : A) : keeps_files (ret a).
Proof. intros w. reflexivity. Qed.

Lemma keeps_files_raise {A} (e : exc) : keeps_files (@raise A e).
Proof. intros w. reflexivity. Qed.

Lemma keeps_files_print (l : line) : keeps_files (print l).
Proof. intros w. reflexivity. Qed.

Lemma keeps_files_call {A} (c : api_call) (r : reply A) : keeps_files (call c r).
Proof. intros w. reflexivity. Qed.

Lemma keeps_files_bind {A B} (m : M A) (k : A -> M B) :
  keeps_files m -> (forall a, keeps_files (k a)) -> keeps_files (bind m k).
Proof.
  intros Hm Hk w. unfold bind. specialize (Hm w).
  destruct (m w) as [[a|e] w1]; cbn [snd] in *.
  - now rewrite (Hk a w1).
  - exact Hm.
Qed.

Lemma keeps_files_if {A} (b : bool) (m1 m2 : M A) :
  keeps_files m1 -> keeps_files m2 -> keeps_files (if b then m1 else m2).
Proof. now destruct b. Qed.

Lemma keeps_files_for_each {A} (l : list A) (body : A -> M unit) :
  (forall x, keeps_files (body x)) -> keeps_files (for_each l body).
Proof.
  intros H. induction l as [|x rest IH]; cbn [for_each].
  - apply keeps_files_ret.
  - apply keeps_files_bind; auto.
Qed.

Lemma keeps_files_for_fold {A S} (l : list A) (body : S -> A -> M S) (s : S) :
  (forall s x, keeps_files (body s x)) -> keeps_files (for_fold l body s).
Proof.
  intros H. revert s. induction l as [|x rest IH]; intros s; cbn [for_fold].
  - apply keeps_files_ret.
  - apply keeps_files_bind; auto.
Qed.

Lemma keeps_files_for_listing {S} (l : listing) (step : S -> Submission -> S)
    (s : S) :
  keeps_files (for_listing l step s).
Proof. intros w. unfold for_listing. now destruct (failure l). Qed.

Lemma keeps_files_try {A} (body : M A) (handler : exc -> option (M A)) :
  keeps_files body ->
  (forall e h, handler e = Some h -> keeps_files h) ->
  keeps_files (try_except body handler).
Proof.
  intros Hb Hh w. unfold try_except. specialize (Hb w).
  destruct (body w) as [[a|e] w1]; cbn [snd] in *; [exact Hb|].
  destruct (handler e) as [h|] eqn:E; [|exact Hb].
  now rewrite (Hh e h E w1).
Qed.

#[local] Hint Resolve keeps_files_ret keeps_files_raise keeps_files_print
  keeps_files_call keeps_files_for_listing : files_db.
#[local] Hint Extern 2 (keeps_files (bind _ _)) =>
  apply keeps_files_bind; [|intros ?] : files_db.
#[local] Hint Extern 2 (keeps_files (if _ then _ else _)) =>
  apply keeps_files_if : files_db.

Lemma keeps_files_handlers (e : exc) (h : M pyobj) :
  fetch_handlers e = Some h -> keeps_files h.
Proof.
  unfold fetch_handlers.
  destruct (exc_cls e); intros H; inversion H; auto with files_db.
Qed.

Lemma keeps_files_checks (subreddit_names limit query : pyval) :
  keeps_files (check_subreddit_names subreddit_names)
  /\ keeps_files (check_limit limit)
  /\ keeps_files (check_query query).
Proof.
  unfold check_subreddit_names, check_limit, check_query. repeat split.
  - apply keeps_files_if; [auto with files_db|].
    apply keeps_files_for_each. intros x. auto with files_db.
  - auto with files_db.
  - auto with files_db.
Qed.

Lemma download_hot_posts_keeps_files reddit subreddit_names limit :
  keeps_files (download_hot_posts reddit subreddit_names limit).
Proof.
  destruct (keeps_files_checks subreddit_names limit VNone) as [Hn [Hl _]].
  unfold download_hot_posts.
  apply keeps_files_bind; [exact Hn | intros _].
  apply keeps_files_bind; [exact Hl | intros _].
  apply keeps_files_try; [|apply keeps_files_handlers].
  apply keeps_files_bind; [|auto with files_db].
  apply keeps_files_for_fold. intros acc n. unfold hot_turn.
  auto 10 with files_db.
Qed.

Lemma search_posts_keeps_files reddit query subreddit_names limit :
  keeps_files (search_posts reddit query subreddit_names limit).
Proof.
  destruct (keeps_files_checks subreddit_names limit query) as [Hn [Hl Hq]].
  unfold search_posts.
  apply keeps_files_bind; [exact Hq | intros _].
  apply keeps_files_bind; [exact Hn | intros _].
  apply keeps_files_bind; [exact Hl | intros _].
  apply keeps_files_try; [|apply keeps_files_handlers].
  apply keeps_files_bind; [|auto with files_db].
  apply keeps_files_for_fold. intros acc n. unfold search_turn.
  auto 10 with files_db.
Qed.

(** ** The persister on the sample records *)

Example merged_rows_kept :
  keep_first_occurrence merged = [rec_a; rec_zero].
Proof. reflexivity. Qed.

Example merged_table :
  fst (save_to_csv (OList merged) "reddit_data.csv" w0)
  = Ok (Some {| df_columns :=
                  ["title"; "score"; "upvote_ratio"; "num_comments"; "author";
                   "subreddit"; "url"; "permalink"; "created_utc"; "is_self";
                   "selftext"; "flair"; "domain"; "search_query"];
                df_rows :=
                  [{| row_label := 0; row_permalink := Some "/r/ml/a" |};
                   {| row_label := 1; row_permalink := None |}] |}).
Proof. reflexivity. Qed.

Example scalar_is_refused :
  fst (save_to_csv (OInt 5) "reddit_data.csv" w0)
  = Raises (Exc ValueError "DataFrame constructor not properly called!").
Proof. reflexivity. Qed.

Lemma persister_deduplication_idempotent_witness :
  merged <> []
  /\ exists df w1 df' w2,
      save_to_csv (OList merged) "reddit_data.csv" w0 = (Ok (Some df), w1)
      /\ map (source_of merged) (df_rows df)
         = map Some (keep_first_occurrence merged)
      /\ map row_permalink (df_rows df)
         = map PostRecord.permalink (keep_first_occurrence merged)
      /\ save_to_csv (OList (keep_first_occurrence merged)) "reddit_data.csv" w1
         = (Ok (Some df'), w2)
      /\ length (df_rows df') = length (df_rows df)
      /\ len df' = len df
      /\ map row_permalink (df_rows df') = map row_permalink (df_rows df)
      /\ fst (save_to_csv (OList merged) "reddit_data.csv" w1) = Ok (Some df).
Proof.
  split; [discriminate|].
  apply (persister_deduplication_idempotent merged "reddit_data.csv" w0).
  discriminate.
Defined.

Lemma persister_skips_empty_writes_nonempty_witness :
  save_to_csv (OList []) "reddit_data.csv" w0
  = (Ok None, {| console := [[Lit "No posts to save."]];
                 api_calls := [];
                 files := [] |})
  /\ exists df w',
      save_to_csv (OList merged) "reddit_data.csv" w0 = (Ok (Some df), w')
      /\ map (source_of merged) (df_rows df)
         = map Some (keep_first_occurrence merged)
      /\ map row_permalink (df_rows df)
         = map PostRecord.permalink (keep_first_occurrence merged)
      /\ read_file "reddit_data.csv" (files w')
         = Some {| csv_header := df_columns df; csv_rows := df_rows df |}.
Proof.
  destruct (persister_skips_empty_writes_nonempty "reddit_data.csv" w0)
    as [E W].
  split.
  - apply (E (OList [])). left. reflexivity.
  - apply (W merged). discriminate.
Defined.

Lemma missing_permalinks_collapse_to_first_witness :
  2 <= length (filter missing_permalink merged)
  /\ exists first others df w' x,
      filter missing_permalink merged = first :: others
      /\ save_to_csv (OList merged) "reddit_data.csv" w0 = (Ok (Some df), w')
      /\ filter row_missing_permalink (df_rows df) = [x]
      /\ source_of merged x = Some first
      /\ (forall j r, j < row_label x -> nth_error merged j = Some r ->
                      missing_permalink r = false).
Proof.
  split; [cbn; lia|].
  apply (missing_permalinks_collapse_to_first merged "reddit_data.csv" w0).
  cbn. lia.
Defined.

(** ** The driver (C3) *)

Lemma fetch_result_cases (r : pyobj) :
  (r = OBool false \/ exists recs, r = OList recs) ->
  r <> OBool false -> exists recs, r = OList recs.
Proof. intros [->|H] N; [congruence | exact H]. Qed.

(** C3, as the code has it: when exactly one of the two fetches returns
    [False], adding the two results raises a [TypeError] that ends the run;
    when both return [False], the sum is the integer 0, the persister takes
    it for empty input, and the run ends normally.  In both cases no file is
    written. *)
Theorem driver_after_failed_fetch :
  forall reddit w h s w1 w2,
    download_hot_posts reddit subreddits (VInt 10) w = (Ok h, w1) ->
    search_posts reddit (VStr "GPT-4") subreddits (VInt 10) w1 = (Ok s, w2) ->
    ((h = OBool false /\ s <> OBool false)
     \/ (h <> OBool false /\ s = OBool false) ->
     exists e, main reddit w = (Raises e, w2) /\ exc_cls e = TypeError)
    /\ (h = OBool false /\ s = OBool false ->
        py_add h s = Ok (OInt 0)
        /\ main reddit w
           = (Ok tt, {| console := console w2 ++ [[Lit "No posts to save."]];
                        api_calls := api_calls w2;
                        files := files w2 |}))
    /\ files w2 = files w.
Proof.
  intros reddit w h s w1 w2 H1 H2.
  assert (main reddit w
          = (all_collected <- lift (py_add h s) ;;
             final_df <- save_to_csv all_collected "reddit_data.csv" ;;
             match final_df with
             | Some df =>
                 print [Lit (nl ++ "Final dataset shape: ");
                        Val (VTuple [VInt (len df);
                                     VInt (Z.of_nat (length (df_columns df)))])] ;;
                 print [Lit "Columns: "; Val (VList (map VStr (df_columns df)))]
             | None => ret tt
             end) w2) as E.
  { unfold main. rewrite (bind_ok _ _ _ H1). now rewrite (bind_ok _ _ _ H2). }
  assert (h = OBool false \/ exists recs, h = OList recs) as Ch.
  { destruct (download_hot_posts_returns _ _ _ _ _ _ H1); eauto. }
  assert (s = OBool false \/ exists recs, s = OList recs) as Cs.
  { destruct (search_posts_returns _ _ _ _ _ _ _ H2); eauto. }
  repeat split.
  - intros [[-> N] | [N ->]].
    + destruct (fetch_result_cases s Cs N) as [recs ->].
      rewrite E. eexists. split; reflexivity.
    + destruct (fetch_result_cases h Ch N) as [recs ->].
      rewrite E. eexists. split; reflexivity.
  - destruct H as [-> ->]. reflexivity.
  - destruct H as [-> ->]. rewrite E. reflexivity.
  - pose proof (download_hot_posts_keeps_files reddit subreddits (VInt 10) w) as F1.
    pose proof (search_posts_keeps_files reddit (VStr "GPT-4") subreddits
                  (VInt 10) w1) as F2.
    rewrite H1 in F1. rewrite H2 in F2. cbn [snd] in *. congruence.
Qed.

Lemma driver_after_failed_fetch_witness :
  exists e, fst (main hot_down_reddit w0) = Raises e /\ exc_cls e = TypeError.
Proof.
  destruct (download_hot_posts hot_down_reddit subreddits (VInt 10) w0)
    as [rh w1] eqn:E1.
  destruct (search_posts hot_down_reddit (VStr "GPT-4") subreddits (VInt 10) w1)
    as [rs w2] eqn:E2.
  assert (rh = Ok (OBool false)) as Rh
      by (vm_compute in E1; now inversion E1).
  assert (exists recs, rs = Ok (OList recs)) as [recs Rs].
  { assert (w1 = snd (download_hot_posts hot_down_reddit subreddits (VInt 10) w0))
      as W by now rewrite E1.
    rewrite W in E2. vm_compute in E2. inversion E2. eauto. }
  subst rh rs.
  destruct (driver_after_failed_fetch hot_down_reddit w0 (OBool false)
              (OList recs) w1 w2 E1 E2) as [T _].
  destruct T as [e [Em Ec]].
  - left. split; [reflexivity | discriminate].
  - exists e. rewrite Em. split; [reflexivity | exact Ec].
Defined.

(** C3 fails as stated: with a client whose every call fails, both fetchers
    return [False], their sum is 0, and the run ends normally after the
    notice, with no exception. *)
Lemma both_fetches_failed_run_ends_normally :
  fst (download_hot_posts down_reddit subreddits (VInt 10) w0) = Ok (OBool false)
  /\ fst (search_posts down_reddit (VStr "GPT-4") subreddits (VInt 10)
            (snd (download_hot_posts down_reddit subreddits (VInt 10) w0)))
     = Ok (OBool false)
  /\ py_add (OBool false) (OBool false) = Ok (OInt 0)
  /\ main down_reddit w0
     = (Ok tt,
        {| console :=
             [[Lit "Reddit API error: "; Lit "received 503 HTTP response"];
              [Lit "Reddit API error: "; Lit "received 503 HTTP response"];
              [Lit "No posts to save."]];
           api_calls := [CallSubreddit (VStr "MachineLearning");
                         CallSubreddit (VStr "MachineLearning")];
           files := [] |})
  /\ ~ (exists e w', main down_reddit w0 = (Raises e, w')).
Proof.
  repeat split. intros [e [w' H]]. vm_compute in H. discriminate.
Qed.

(** * Further properties of the code *)

(** ** The exact run of a fetch *)

Lemma grow_nothing (w : world) : grow w [] [] = w.
Proof. destruct w. unfold grow. cbn. now rewrite !app_nil_r. Qed.

Lemma grow_grow (w : world) ls cs ls' cs' :
  grow (grow w ls cs) ls' cs' = grow w (ls ++ ls') (cs ++ cs').
Proof. unfold grow. cbn. now rewrite !app_assoc. Qed.

Lemma completes_failure_of (r : reply listing) :
  completes r = true <-> failure_of r = None.
Proof.
  destruct r as [l|e]; cbn; [|split; discriminate].
  destruct (failure l); split; congruence.
Qed.

Lemma first_failure_none answer names :
  first_failure answer names = None <->
  (forall n, In n names -> completes (answer n) = true).
Proof.
  induction names as [|n names IH]; cbn [first_failure].
  - split; [intros _ n [] | reflexivity].
  - destruct (failure_of (answer n)) eqn:F.
    + split; [discriminate|]. intros H.
      specialize (H n (or_introl eq_refl)).
      apply completes_failure_of in H. congruence.
    + rewrite IH. split.
      * intros H m [<-|Hm]; [now apply completes_failure_of | now apply H].
      * intros H m Hm. apply H. now right.
Qed.

Lemma visited_all answer names :
  first_failure answer names = None -> visited answer names = names.
Proof.
  induction names as [|n names IH]; cbn [first_failure visited]; [reflexivity|].
  destruct (failure_of (answer n)); [discriminate|]. intros H. now rewrite IH.
Qed.

Section FetchExact.
Variable turn : list PostRecord.t -> pyval -> M (list PostRecord.t).
Variable answer : pyval -> reply listing.
Variable record_of : pyval -> Submission -> PostRecord.t.
Variable turn_lines : pyval -> list line.
Variable turn_calls : pyval -> list api_call.

(** One turn ends as the forum's listing ends, and leaves its lines and its
    calls. *)
Hypothesis turn_exact : forall acc n w,
  turn acc n w
  = (match failure_of (answer n) with
     | None => Ok (acc ++ map (record_of n) (posts_of (answer n)))
     | Some e => Raises e
     end,
     grow w (turn_lines n) (turn_calls n)).

Lemma loop_exact names acc w :
  for_fold names turn acc w
  = (match first_failure answer names with
     | None => Ok (acc ++ fetched answer record_of names)
     | Some e => Raises e
     end,
     grow w (flat_map turn_lines (visited answer names))
       (flat_map turn_calls (visited answer names))).
Proof.
  revert acc w. induction names as [|n names IH]; intros acc w.
  - cbn. now rewrite grow_nothing, app_nil_r.
  - cbn [for_fold first_failure visited flat_map]. unfold bind.
    rewrite turn_exact. destruct (failure_of (answer n)) as [e|].
    + cbn [flat_map]. now rewrite !app_nil_r.
    + rewrite IH, grow_grow. cbn [fetched flat_map]. now rewrite app_assoc.
Qed.

Lemma guarded_loop_exact names w :
  try_except (posts <- for_fold names turn [] ;; ret (OList posts))
    fetch_handlers w
  = (fetch_outcome answer record_of names,
     grow w (flat_map turn_lines (visited answer names)
             ++ error_lines answer names)
       (flat_map turn_calls (visited answer names))).
Proof.
  unfold try_except, bind, ret, fetch_outcome, error_lines.
  rewrite loop_exact. destruct (first_failure answer names) as [e|].
  - unfold fetch_handlers, error_label.
    destruct e as [c msg]. cbn [exc_cls exc_msg].
    destruct c; unfold bind, print, ret, grow; cbn;
      rewrite ?app_nil_r, <- ?app_assoc; reflexivity.
  - cbn [app]. now rewrite app_nil_r.
Qed.
End FetchExact.

Lemma hot_turn_exact reddit limit acc n w :
  hot_turn reddit limit acc n w
  = (match failure_of (hot_listing reddit limit n) with
     | None => Ok (acc ++ map (hot_record n)
                           (posts_of (hot_listing reddit limit n)))
     | Some e => Raises e
     end,
     grow w (progress_lines " hot posts from r/" limit
               (hot_listing reddit limit n) n)
       (hot_calls reddit limit n)).
Proof.
  unfold hot_turn, hot_listing, hot_calls, progress_lines, failure_of,
    bind, call, print, for_listing, ret, raise, grow.
  destruct (subreddit reddit n) as [sub|e]; cbn;
    [|now rewrite app_nil_r].
  destruct (hot sub limit) as [l|e]; cbn;
    [|rewrite ?app_nil_r, <- ?app_assoc; reflexivity].
  rewrite collect_fold.
  destruct (failure l) as [e|]; cbn; rewrite <- ?app_assoc; reflexivity.
Qed.

Lemma search_turn_exact reddit query limit acc n w :
  search_turn reddit query limit acc n w
  = (match failure_of (search_listing reddit query limit n) with
     | None => Ok (acc ++ map (search_record query n)
                           (posts_of (search_listing reddit query limit n)))
     | Some e => Raises e
     end,
     grow w (progress_lines " keyword posts from r/" limit
               (search_listing reddit query limit n) n)
       (search_calls reddit query limit n)).
Proof.
  unfold search_turn, search_listing, search_calls, progress_lines, failure_of,
    bind, call, print, for_listing, ret, raise, grow.
  destruct (subreddit reddit n) as [sub|e]; cbn;
    [|now rewrite app_nil_r].
  destruct (search sub query limit "relevance") as [l|e]; cbn;
    [|rewrite ?app_nil_r, <- ?app_assoc; reflexivity].
  rewrite collect_fold.
  destruct (failure l) as [e|]; cbn; rewrite <- ?app_assoc; reflexivity.
Qed.

(** On valid input a fetcher returns what the first failure decides, and
    leaves the lines and the calls of the forums it visited. *)
Lemma download_hot_posts_exact reddit names limit w :
  invalid_input names limit = false ->
  download_hot_posts reddit names limit w
  = (fetch_outcome (hot_listing reddit limit) hot_record (items names),
     grow w
       (flat_map (fun n => progress_lines " hot posts from r/" limit
                             (hot_listing reddit limit n) n)
          (visited (hot_listing reddit limit) (items names))
        ++ error_lines (hot_listing reddit limit) (items names))
       (flat_map (hot_calls reddit limit)
          (visited (hot_listing reddit limit) (items names)))).
Proof.
  intros V. rewrite (download_hot_posts_valid reddit names limit w V).
  apply guarded_loop_exact. intros acc n w1. apply hot_turn_exact.
Qed.

Lemma search_posts_exact reddit query names limit w :
  invalid_query query = false ->
  invalid_input names limit = false ->
  search_posts reddit query names limit w
  = (fetch_outcome (search_listing reddit query limit) (search_record query)
       (items names),
     grow w
       (flat_map (fun n => progress_lines " keyword posts from r/" limit
                             (search_listing reddit query limit n) n)
          (visited (search_listing reddit query limit) (items names))
        ++ error_lines (search_listing reddit query limit) (items names))
       (flat_map (search_calls reddit query limit)
          (visited (search_listing reddit query limit) (items names)))).
Proof.
  intros Q V. rewrite (search_posts_valid reddit query names limit w Q V).
  apply guarded_loop_exact. intros acc n w1. apply search_turn_exact.
Qed.

(** ** What a fetch returns when the client fails *)

(** X1: on valid input, when a forum's call or iteration fails, the fetcher
    ends at the first such forum: it returns [False], dropping the records
    of the forums before it, when the exception is an [Exception], and it
    raises the exception itself otherwise. *)
Theorem fetch_ends_at_first_failure :
  forall reddit query subreddit_names limit w e,
    invalid_input subreddit_names limit = false ->
    invalid_query query = false ->
    (first_failure (hot_listing reddit limit) (items subreddit_names) = Some e ->
     fst (download_hot_posts reddit subreddit_names limit w)
     = match exc_cls e with
       | KeyboardInterrupt => Raises e
       | _ => Ok (OBool false)
       end)
    /\ (first_failure (search_listing reddit query limit) (items subreddit_names)
        = Some e ->
        fst (search_posts reddit query subreddit_names limit w)
        = match exc_cls e with
          | KeyboardInterrupt => Raises e
          | _ => Ok (OBool false)
          end).
Proof.
  intros reddit query names limit w e V Q. split; intros F.
  - rewrite (download_hot_posts_exact reddit names limit w V). cbn [fst].
    unfold fetch_outcome. rewrite F. now destruct (exc_cls e).
  - rewrite (search_posts_exact reddit query names limit w Q V). cbn [fst].
    unfold fetch_outcome. rewrite F. now destruct (exc_cls e).
Qed.

Lemma fetch_ends_at_first_failure_witness :
  first_failure (hot_listing hot_down_reddit (VInt 2)) (items two_forums)
  = Some outage
  /\ fst (download_hot_posts hot_down_reddit two_forums (VInt 2) w0)
     = Ok (OBool false).
Proof.
  split; [reflexivity|].
  apply (fetch_ends_at_first_failure hot_down_reddit (VStr "GPT-4") two_forums
           (VInt 2) w0 outage eq_refl eq_refl).
  reflexivity.
Defined.

(** ** The calls a fetch makes *)

(** X2: on valid input the client is called forum by forum in list order,
    [subreddit] first and then [hot] (or [search], with the query, the
    caller's limit and the sort "relevance") when the first answered, and no
    call is made after the first forum that fails. *)
Theorem fetch_calls_in_order :
  forall reddit query subreddit_names limit w,
    invalid_input subreddit_names limit = false ->
    invalid_query query = false ->
    api_calls (snd (download_hot_posts reddit subreddit_names limit w))
    = api_calls w
      ++ flat_map (hot_calls reddit limit)
           (visited (hot_listing reddit limit) (items subreddit_names))
    /\ api_calls (snd (search_posts reddit query subreddit_names limit w))
       = api_calls w
         ++ flat_map (search_calls reddit query limit)
              (visited (search_listing reddit query limit)
                 (items subreddit_names)).
Proof.
  intros reddit query names limit w V Q. split.
  - now rewrite (download_hot_posts_exact reddit names limit w V).
  - now rewrite (search_posts_exact reddit query names limit w Q V).
Qed.

Lemma fetch_calls_in_order_witness :
  api_calls (snd (download_hot_posts hot_down_reddit two_forums (VInt 2) w0))
  = [CallSubreddit (VStr "MachineLearning");
     CallHot (VStr "MachineLearning") (VInt 2)]
  /\ api_calls (snd (search_posts steady_reddit (VStr "GPT-4") two_forums
                       (VInt 2) w0))
     = [CallSubreddit (VStr "MachineLearning");
        CallSearch (VStr "MachineLearning") (VStr "GPT-4") (VInt 2) "relevance";
        CallSubreddit (VStr "OpenAI");
        CallSearch (VStr "OpenAI") (VStr "GPT-4") (VInt 2) "relevance"].
Proof.
  destruct (fetch_calls_in_order hot_down_reddit (VStr "GPT-4") two_forums
              (VInt 2) w0 eq_refl eq_refl) as [H _].
  destruct (fetch_calls_in_order steady_reddit (VStr "GPT-4") two_forums
              (VInt 2) w0 eq_refl eq_refl) as [_ S].
  split; [rewrite H | rewrite S]; reflexivity.
Defined.

(** ** The lines a fetch prints *)

(** X3: on valid input, when every call completes, a fetcher prints two
    lines per forum, in list order: the announcement with the limit, and the
    count of the posts that forum yielded. *)
Theorem fetch_progress_lines :
  forall reddit query subreddit_names limit w,
    invalid_input subreddit_names limit = false ->
    invalid_query query = false ->
    (all_complete (hot_listing reddit limit) subreddit_names ->
     console (snd (download_hot_posts reddit subreddit_names limit w))
     = console w
       ++ flat_map
            (fun n =>
               [[Lit "Downloading "; Val limit; Lit " hot posts from r/";
                 Val n; Lit ("..." ++ nl)];
                [Lit "Successfully downloaded ";
                 Num (Z.of_nat (length (posts_of (hot_listing reddit limit n))));
                 Lit " posts from "; Val n; Lit "!"]])
            (items subreddit_names))
    /\ (all_complete (search_listing reddit query limit) subreddit_names ->
        console (snd (search_posts reddit query subreddit_names limit w))
        = console w
          ++ flat_map
               (fun n =>
                  [[Lit "Downloading "; Val limit; Lit " keyword posts from r/";
                    Val n; Lit ("..." ++ nl)];
                   [Lit "Successfully downloaded ";
                    Num (Z.of_nat (length (posts_of
                                             (search_listing reddit query limit n))));
                    Lit " posts from "; Val n; Lit "!"]])
               (items subreddit_names)).
Proof.
  assert (forall what limit answer names,
             (forall n, In n names -> completes (answer n) = true) ->
             flat_map (fun n => progress_lines what limit (answer n) n) names
             = flat_map
                 (fun n =>
                    [[Lit "Downloading "; Val limit; Lit what; Val n;
                      Lit ("..." ++ nl)];
                     [Lit "Successfully downloaded ";
                      Num (Z.of_nat (length (posts_of (answer n))));
                      Lit " posts from "; Val n; Lit "!"]])
                 names) as P.
  { intros what limit answer names C.
    induction names as [|n names IH]; [reflexivity|].
    cbn [flat_map]. rewrite IH by (intros m Hm; apply C; now right).
    f_equal. specialize (C n (or_introl eq_refl)).
    unfold progress_lines, posts_of.
    destruct (answer n) as [l|e]; cbn in C; [|discriminate].
    destruct (failure l); [discriminate | reflexivity]. }
  intros reddit query names limit w V Q. split; intros C.
  - rewrite (download_hot_posts_exact reddit names limit w V). cbn [snd].
    apply first_failure_none in C. unfold error_lines. rewrite C.
    rewrite (visited_all _ _ C). cbn [grow console]. rewrite app_nil_r.
    f_equal. apply P. now apply first_failure_none.
  - rewrite (search_posts_exact reddit query names limit w Q V). cbn [snd].
    apply first_failure_none in C. unfold error_lines. rewrite C.
    rewrite (visited_all _ _ C). cbn [grow console]. rewrite app_nil_r.
    f_equal. apply P. now apply first_failure_none.
Qed.

Lemma fetch_progress_lines_witness :
  console (snd (download_hot_posts steady_reddit (VList [VStr "OpenAI"])
                  (VInt 2) w0))
  = [[Lit "Downloading "; Val (VInt 2); Lit " hot posts from r/";
      Val (VStr "OpenAI"); Lit ("..." ++ nl)];
     [Lit "Successfully downloaded "; Num 2; Lit " posts from ";
      Val (VStr "OpenAI"); Lit "!"]].
Proof.
  destruct (fetch_progress_lines steady_reddit (VStr "GPT-4")
              (VList [VStr "OpenAI"]) (VInt 2) w0 eq_refl eq_refl) as [H _].
  rewrite H; [reflexivity|]. intros n _. reflexivity.
Defined.

(** X4: on valid input, when the first failure is an [Exception], the last
    line a fetcher prints is the text of the clause for its class followed
    by the exception's message; a [ValueError] raised by the client is
    printed as an input validation error. *)
Theorem fetch_error_line :
  forall reddit query subreddit_names limit w e label,
    invalid_input subreddit_names limit = false ->
    invalid_query query = false ->
    error_label (exc_cls e) = Some label ->
    (first_failure (hot_listing reddit limit) (items subreddit_names) = Some e ->
     exists earlier,
       console (snd (download_hot_posts reddit subreddit_names limit w))
       = console w ++ earlier ++ [[Lit label; Lit (exc_msg e)]])
    /\ (first_failure (search_listing reddit query limit) (items subreddit_names)
        = Some e ->
        exists earlier,
          console (snd (search_posts reddit query subreddit_names limit w))
          = console w ++ earlier ++ [[Lit label; Lit (exc_msg e)]]).
Proof.
  intros reddit query names limit w e label V Q L. split; intros F.
  - rewrite (download_hot_posts_exact reddit names limit w V). cbn [snd].
    unfold error_lines. rewrite F, L. eexists. reflexivity.
  - rewrite (search_posts_exact reddit query names limit w Q V). cbn [snd].
    unfold error_lines. rewrite F, L. eexists. reflexivity.
Qed.

Lemma fetch_error_line_witness :
  exists earlier,
    console (snd (download_hot_posts picky_reddit two_forums (VInt 2) w0))
    = console w0 ++ earlier
      ++ [[Lit "Input validation error: "; Lit "limit out of range"]].
Proof.
  apply (fetch_error_line picky_reddit (VStr "GPT-4") two_forums (VInt 2) w0
           (Exc ValueError "limit out of range") "Input validation error: "
           eq_refl eq_refl eq_refl).
  reflexivity.
Defined.

(** X5: whatever its arguments and whatever the client does, a fetcher only
    adds lines to the console and calls to the trace: it never writes,
    replaces or removes a file and never drops an earlier line. *)
Theorem fetchers_only_print_and_call :
  forall reddit query subreddit_names limit w,
    (exists ls cs,
        snd (download_hot_posts reddit subreddit_names limit w) = grow w ls cs)
    /\ (exists ls cs,
           snd (search_posts reddit query subreddit_names limit w)
           = grow w ls cs).
Proof.
  intros reddit query names limit w.
  destruct (invalid_input names limit) eqn:V.
  - destruct (download_hot_posts_rejects reddit names limit w V) as [m1 E1].
    destruct (search_posts_rejects reddit query names limit w V) as [m2 E2].
    rewrite E1, E2. cbn [snd].
    split; exists [], []; now rewrite grow_nothing.
  - split.
    + rewrite (download_hot_posts_exact reddit names limit w V). cbn [snd].
      eauto.
    + destruct (invalid_query query) eqn:Q.
      * rewrite (search_posts_invalid_query reddit query names limit w Q).
        cbn [snd]. exists [], []. now rewrite grow_nothing.
      * rewrite (search_posts_exact reddit query names limit w Q V). cbn [snd].
        eauto.
Qed.

(** ** The order of the checks *)

(** X6: [search_posts] checks its query first: a query that is not a
    non-empty string is refused with the query message before any call and
    with nothing printed, whatever the forum list and the limit are. *)
Theorem query_is_checked_first :
  forall reddit query subreddit_names limit w,
    invalid_query query = true ->
    search_posts reddit query subreddit_names limit w
    = (Raises (Exc ValueError "Query must be a non-empty string"), w).
Proof.
  intros reddit query names limit w Q.
  unfold search_posts. apply bind_raises.
  rewrite check_query_cases. now rewrite Q.
Qed.

Lemma query_is_checked_first_witness :
  invalid_query (VStr "") = true
  /\ search_posts steady_reddit (VStr "") (VList []) (VInt 0) w0
     = (Raises (Exc ValueError "Query must be a non-empty string"), w0).
Proof.
  split; [reflexivity|].
  apply (query_is_checked_first steady_reddit (VStr "") (VList []) (VInt 0) w0).
  reflexivity.
Defined.

Lemma first_check_message (v : pyval) (w : world) :
  isinstance_list v = false \/ items v = [] ->
  check_subreddit_names v w
  = (Raises (Exc ValueError "Subreddit names must be a non-empty list"), w).
Proof.
  intros H. unfold check_subreddit_names.
  destruct v as [| b | z | f | s | l | l]; cbn; rewrite ?orb_true_r;
    try reflexivity.
  destruct H as [H|H]; [discriminate|]. cbn in H. now subst l.
Qed.

Lemma second_check_message (v : pyval) (w : world) :
  isinstance_list v = true ->
  existsb invalid_forum_name (items v) = true ->
  check_subreddit_names v w
  = (Raises (Exc ValueError "Subreddit name must be a non-empty string"), w).
Proof.
  intros L H. unfold check_subreddit_names.
  destruct v as [| b | z | f | s | l | l]; try discriminate.
  destruct l as [|x rest]; [discriminate|].
  cbn [truthy Truthy_pyval Truthy_list isinstance_list negb orb items] in *.
  rewrite name_check_loop. now rewrite H.
Qed.

(** X7: the checks on the forum list and the limit run in a fixed order, so
    the message tells the first one that fails: the list message when the
    argument is not a list or is empty; else the name message when a name is
    not a non-empty string; else the limit message.  [search_posts] gives
    the same messages once its query passed. *)
Theorem validation_messages_in_order :
  forall reddit query subreddit_names limit w,
    invalid_query query = false ->
    let refused msg :=
      download_hot_posts reddit subreddit_names limit w
      = (Raises (Exc ValueError msg), w)
      /\ search_posts reddit query subreddit_names limit w
         = (Raises (Exc ValueError msg), w) in
    (isinstance_list subreddit_names = false \/ items subreddit_names = [] ->
     refused "Subreddit names must be a non-empty list")
    /\ (isinstance_list subreddit_names = true ->
        existsb invalid_forum_name (items subreddit_names) = true ->
        refused "Subreddit name must be a non-empty string")
    /\ (invalid_forum_names subreddit_names = false ->
        invalid_limit limit = true ->
        refused "Limit must be a positive integer").
Proof.
  intros reddit query names limit w Q refused. subst refused. cbv beta.
  pose proof (check_query_cases query w) as Cq. rewrite Q in Cq.
  unfold download_hot_posts, search_posts.
  rewrite (bind_ok _ _ _ Cq). repeat split.
  - apply bind_raises. now apply first_check_message.
  - apply bind_raises. now apply first_check_message.
  - apply bind_raises. now apply second_check_message.
  - apply bind_raises. now apply second_check_message.
  - rewrite (bind_ok _ _ _ (check_subreddit_names_accepts names w H)).
    apply bind_raises. now apply check_limit_rejects.
  - rewrite (bind_ok _ _ _ (check_subreddit_names_accepts names w H)).
    apply bind_raises. now apply check_limit_rejects.
Qed.

Lemma validation_messages_in_order_witness :
  download_hot_posts steady_reddit (VList [VStr "OpenAI"; VInt 7]) (VInt 0) w0
  = (Raises (Exc ValueError "Subreddit name must be a non-empty string"), w0)
  /\ download_hot_posts steady_reddit two_forums (VInt 0) w0
     = (Raises (Exc ValueError "Limit must be a positive integer"), w0)
  /\ download_hot_posts steady_reddit VNone (VInt 0) w0
     = (Raises (Exc ValueError "Subreddit names must be a non-empty list"), w0).
Proof.
  destruct (validation_messages_in_order steady_reddit (VStr "GPT-4")
              (VList [VStr "OpenAI"; VInt 7]) (VInt 0) w0 eq_refl)
    as [_ [N _]].
  destruct (validation_messages_in_order steady_reddit (VStr "GPT-4")
              two_forums (VInt 0) w0 eq_refl) as [_ [_ L]].
  destruct (validation_messages_in_order steady_reddit (VStr "GPT-4")
              VNone (VInt 0) w0 eq_refl) as [A _].
  split; [apply N; reflexivity|].
  split; [apply L; reflexivity | apply A; left; reflexivity].
Defined.

(** ** True values are copied *)

Lemma or_none_keeps_text (o : option string) :
  falsy_text o = false -> or_none o = o.
Proof. destruct o as [[|c s]|]; cbn; congruence. Qed.

Lemma or_none_keeps_int (o : option Z) : falsy_int o = false -> or_none o = o.
Proof.
  destruct o as [z|]; [|discriminate]. cbn [falsy_int]. intros H.
  unfold or_none, truthy, Truthy_option, truthy, Truthy_Z. now rewrite H.
Qed.

Lemma or_none_keeps_float (o : option spec_float) :
  falsy_float o = false -> or_none o = o.
Proof. destruct o as [[]|]; cbn; congruence. Qed.

Lemma or_none_keeps_bool (o : option bool) :
  falsy_bool o = false -> or_none o = o.
Proof. destruct o as [[]|]; cbn; congruence. Qed.

Lemma or_none_keeps_object (o : option Redditor) :
  falsy_object o = false -> or_none o = o.
Proof. destruct o; cbn; congruence. Qed.

(** X8: an attribute of the post that is a true value (non-empty text,
    non-zero number, [True], an author object) is copied unchanged into the
    record, by both fetchers, for each of the eleven fields that are not
    truncated. *)
Theorem true_values_are_copied :
  forall query n post,
    let h := hot_record n post in
    let s := search_record query n post in
    let kept := fun (A : Type) (falsy : option A -> bool)
                    (src in_hot in_search : option A) =>
                  falsy src = false -> in_hot = src /\ in_search = src in
    kept _ falsy_text (title post) (PostRecord.title h) (PostRecord.title s)
    /\ kept _ falsy_int (score post) (PostRecord.score h) (PostRecord.score s)
    /\ kept _ falsy_float (upvote_ratio post) (PostRecord.upvote_ratio h)
         (PostRecord.upvote_ratio s)
    /\ kept _ falsy_int (num_comments post) (PostRecord.num_comments h)
         (PostRecord.num_comments s)
    /\ kept _ falsy_object (author post) (PostRecord.author h)
         (PostRecord.author s)
    /\ kept _ falsy_text (url post) (PostRecord.url h) (PostRecord.url s)
    /\ kept _ falsy_text (permalink post) (PostRecord.permalink h)
         (PostRecord.permalink s)
    /\ kept _ falsy_float (created_utc post) (PostRecord.created_utc h)
         (PostRecord.created_utc s)
    /\ kept _ falsy_bool (is_self post) (PostRecord.is_self h)
         (PostRecord.is_self s)
    /\ kept _ falsy_text (link_flair_text post) (PostRecord.flair h)
         (PostRecord.flair s)
    /\ kept _ falsy_text (domain post) (PostRecord.domain h)
         (PostRecord.domain s).
Proof.
  intros query n post h s kept. subst h s kept. cbv beta.
  cbn [hot_record search_record PostRecord.title PostRecord.score
       PostRecord.upvote_ratio PostRecord.num_comments PostRecord.author
       PostRecord.url PostRecord.permalink PostRecord.created_utc
       PostRecord.is_self PostRecord.flair PostRecord.domain].
  repeat split;
    first [ now apply or_none_keeps_text | now apply or_none_keeps_int
          | now apply or_none_keeps_float | now apply or_none_keeps_bool
          | now apply or_none_keeps_object ].
Qed.

Lemma true_values_are_copied_witness :
  falsy_int (score post_a) = false
  /\ PostRecord.score (hot_record (VStr "OpenAI") post_a) = Some 42%Z
  /\ PostRecord.score (search_record (VStr "GPT-4") (VStr "OpenAI") post_a)
     = Some 42%Z.
Proof.
  split; [reflexivity|].
  destruct (true_values_are_copied (VStr "GPT-4") (VStr "OpenAI") post_a)
    as [_ [S _]].
  apply S. reflexivity.
Defined.

(** ** The exact length of the text *)





(** ** The exact run of the persister *)

Lemma save_to_csv_exact (recs : list PostRecord.t) (filename : string)
    (w : world) :
  recs <> [] ->
  save_to_csv (OList recs) filename w
  = (Ok (Some (table_of recs)),
     {| console :=
          console w
          ++ [[Lit "Removed ";
               Num (Z.of_nat (length recs) - len (table_of recs));
               Lit " duplicate posts."];
              [Lit "Saving "; Num (len (table_of recs));
               Lit " cleaned posts to '"; Lit filename; Lit ("'..." ++ nl)];
              [Lit "Data saved successfully to "; Lit filename]];
        api_calls := api_calls w;
        files := write_file filename (csv_of (table_of recs)) (files w) |}).
Proof.
  intros N. destruct recs as [|r rest]; [congruence|].
  unfold save_to_csv.
  change (truthy (OList (r :: rest))) with true. cbn [negb].
  unfold bind, lift, pd_DataFrame, drop_duplicates.
  cbn [df_columns df_rows]. rewrite permalink_is_a_column.
  unfold print, to_csv, ret. cbn [console api_calls files].
  rewrite <- !app_assoc. unfold len at 1. cbn [df_rows].
  rewrite length_map, <- (length_map fst), enumerate_fst, length_seq.
  reflexivity.
Qed.

Lemma first_seen_length {A K} (eqb : K -> K -> bool) (key : A -> K)
    (seen : list K) (l : list A) :
  length (first_seen eqb key seen l) <= length l.
Proof.
  revert seen. induction l as [|x rest IH]; intros seen; [reflexivity|].
  cbn [first_seen]. destruct (existsb (eqb (key x)) seen); cbn [length].
  - specialize (IH seen). lia.
  - specialize (IH (key x :: seen)). lia.
Qed.

Lemma fresh_keys_nodup (seen : list (option string)) (l : list PostRecord.t) :
  fresh_keys same_key PostRecord.permalink seen l = true ->
  NoDup (map PostRecord.permalink l)
  /\ (forall k, In k seen -> ~ In k (map PostRecord.permalink l)).
Proof.
  revert seen. induction l as [|x rest IH]; intros seen H.
  - split; [constructor | intros k _ []].
  - cbn [fresh_keys] in H. apply andb_true_iff in H. destruct H as [H1 H2].
    apply negb_true_iff in H1.
    destruct (IH _ H2) as [ND D]. cbn [map]. split.
    + constructor; [|exact ND]. apply (D (PostRecord.permalink x)). now left.
    + intros k Hk [E|I].
      * subst k. apply same_key_seen in Hk. congruence.
      * apply (D k); [now right | exact I].
Qed.

Lemma nodup_fresh_keys (seen : list (option string)) (l : list PostRecord.t) :
  NoDup (map PostRecord.permalink l) ->
  (forall k, In k seen -> ~ In k (map PostRecord.permalink l)) ->
  fresh_keys same_key PostRecord.permalink seen l = true.
Proof.
  revert seen. induction l as [|x rest IH]; intros seen ND D; [reflexivity|].
  cbn [fresh_keys]. cbn [map] in ND, D. inversion ND as [|k ks Nin ND']; subst.
  apply andb_true_iff. split.
  - apply negb_true_iff.
    destruct (existsb (same_key (PostRecord.permalink x)) seen) eqn:E;
      [|reflexivity].
    apply same_key_seen in E. exfalso. apply (D _ E). now left.
  - apply IH; [exact ND'|].
    intros k [<-|Hk] I; [now apply Nin|]. apply (D k Hk). now right.
Qed.

Lemma keep_first_covers (l : list PostRecord.t) (r : PostRecord.t) :
  In r l ->
  exists r', In r' (keep_first_occurrence l)
             /\ PostRecord.permalink r' = PostRecord.permalink r.
Proof.
  induction l as [|x rest IH]; intros H; [destruct H|].
  cbn [keep_first_occurrence]. destruct H as [<-|H].
  - exists x. split; [now left | reflexivity].
  - destruct (IH H) as [r' [I E]].
    destruct (same_key (PostRecord.permalink r') (PostRecord.permalink x)) eqn:S.
    + apply same_key_eq in S. exists x. split; [now left | congruence].
    + exists r'. split; [|exact E]. right. apply filter_In. now rewrite S.
Qed.

(** ** The rows of the table *)

(** X10: no two rows of the table the persister returns and writes share a
    permalink; at most one row has none. *)
Theorem table_permalinks_are_distinct :
  forall recs filename w,
    recs <> [] ->
    exists df w',
      save_to_csv (OList recs) filename w = (Ok (Some df), w')
      /\ NoDup (map row_permalink (df_rows df))
      /\ read_file filename (files w') = Some (csv_of df).
Proof.
  intros recs filename w N. rewrite (save_to_csv_exact recs filename w N).
  eexists. eexists. split; [reflexivity|]. split.
  - rewrite table_of_permalinks, <- drop_duplicates_keep_first.
    apply (fresh_keys_nodup []). apply first_seen_fresh.
  - cbn [files]. apply read_after_write.
Qed.

Lemma table_permalinks_are_distinct_witness :
  exists df w',
    save_to_csv (OList merged) "reddit_data.csv" w0 = (Ok (Some df), w')
    /\ NoDup (map row_permalink (df_rows df))
    /\ read_file "reddit_data.csv" (files w') = Some (csv_of df).
Proof.
  apply (table_permalinks_are_distinct merged "reddit_data.csv" w0).
  discriminate.
Defined.

(** X11: the persister loses no permalink and invents no row: every input
    record has a row with its permalink, and every row was built from an
    input record, namely the first one that has the row's permalink. *)
Theorem table_rows_are_first_occurrences :
  forall recs filename w,
    recs <> [] ->
    exists df w',
      save_to_csv (OList recs) filename w = (Ok (Some df), w')
      /\ (forall r, In r recs ->
            exists x, In x (df_rows df)
                      /\ row_permalink x = PostRecord.permalink r)
      /\ (forall x, In x (df_rows df) -> first_with_its_permalink recs x).
Proof.
  intros recs filename w N. rewrite (save_to_csv_exact recs filename w N).
  eexists. eexists. split; [reflexivity|]. split.
  - intros r H. destruct (keep_first_covers recs r H) as [r' [I E]].
    assert (In (PostRecord.permalink r')
              (map row_permalink (df_rows (table_of recs)))) as M.
    { rewrite table_of_permalinks. now apply in_map. }
    apply in_map_iff in M. destruct M as [x [Ex Ix]].
    exists x. split; [exact Ix | congruence].
  - intros x. apply table_of_first.
Qed.

Lemma table_rows_are_first_occurrences_witness :
  exists df w',
    save_to_csv (OList merged) "reddit_data.csv" w0 = (Ok (Some df), w')
    /\ (forall r, In r merged ->
          exists x, In x (df_rows df)
                    /\ row_permalink x = PostRecord.permalink r)
    /\ (forall x, In x (df_rows df) -> first_with_its_permalink merged x).
Proof.
  apply (table_rows_are_first_occurrences merged "reddit_data.csv" w0).
  discriminate.
Defined.

Lemma first_seen_enumerate_fresh (seen : list (option string)) (i : nat)
    (l : list PostRecord.t) :
  fresh_keys same_key PostRecord.permalink seen l = true ->
  first_seen same_key (fun p => PostRecord.permalink (snd p)) seen
    (enumerate i l)
  = enumerate i l.
Proof.
  revert seen i. induction l as [|x rest IH]; intros seen i H; [reflexivity|].
  cbn [fresh_keys] in H. apply andb_true_iff in H. destruct H as [H1 H2].
  apply negb_true_iff in H1.
  cbn [enumerate first_seen snd]. rewrite H1. f_equal. now apply IH.
Qed.

(** X12: when no two input records share a permalink (and at most one has
    none), the persister removes nothing: the table has one row per input
    record, in input order, labelled 0, 1, 2, ... and carrying the record's
    permalink. *)
Theorem distinct_input_is_kept_whole :
  forall recs filename w,
    recs <> [] ->
    NoDup (map PostRecord.permalink recs) ->
    exists df w',
      save_to_csv (OList recs) filename w = (Ok (Some df), w')
      /\ map row_label (df_rows df) = seq 0 (length recs)
      /\ map row_permalink (df_rows df) = map PostRecord.permalink recs.
Proof.
  intros recs filename w N ND. rewrite (save_to_csv_exact recs filename w N).
  eexists. eexists. split; [reflexivity|].
  rewrite table_of_rows, first_seen_enumerate_fresh
    by (apply nodup_fresh_keys; [exact ND | intros k []]).
  rewrite !map_map. split.
  - change (fun x : nat * PostRecord.t => row_label (row_of x))
      with (@fst nat PostRecord.t).
    apply enumerate_fst.
  - change (fun x : nat * PostRecord.t => row_permalink (row_of x))
      with (fun x : nat * PostRecord.t => PostRecord.permalink (snd x)).
    rewrite <- (map_map snd PostRecord.permalink). now rewrite enumerate_snd.
Qed.

Lemma distinct_input_is_kept_whole_witness :
  exists df w',
    save_to_csv (OList distinct_records) "reddit_data.csv" w0
    = (Ok (Some df), w')
    /\ map row_label (df_rows df) = seq 0 (length distinct_records)
    /\ map row_permalink (df_rows df)
       = map PostRecord.permalink distinct_records.
Proof.
  apply (distinct_input_is_kept_whole distinct_records "reddit_data.csv" w0).
  - discriminate.
  - cbn. repeat constructor; cbn; intuition discriminate.
Defined.

(** X13: on a non-empty list the persister prints three lines: the number
    of removed rows, the number of saved rows with the file name, and the
    confirmation.  The two numbers add up to the number of input records,
    at least one row is saved, and the removed count is never negative. *)
Theorem persister_counts_add_up :
  forall recs filename w,
    recs <> [] ->
    exists df w' removed saved,
      save_to_csv (OList recs) filename w = (Ok (Some df), w')
      /\ console w'
         = console w
           ++ [[Lit "Removed "; Num removed; Lit " duplicate posts."];
               [Lit "Saving "; Num saved; Lit " cleaned posts to '";
                Lit filename; Lit ("'..." ++ nl)];
               [Lit "Data saved successfully to "; Lit filename]]
      /\ saved = Z.of_nat (length (df_rows df))
      /\ (removed + saved = Z.of_nat (length recs))%Z
      /\ (0 <= removed)%Z
      /\ (1 <= saved)%Z.
Proof.
  intros recs filename w N. rewrite (save_to_csv_exact recs filename w N).
  eexists. eexists. eexists. eexists. split; [reflexivity|].
  split; [reflexivity|]. unfold len.
  pose proof (first_seen_length same_key PostRecord.permalink [] recs) as L.
  pose proof (keep_first_nonempty recs N) as NE.
  rewrite table_of_length. rewrite drop_duplicates_keep_first in L.
  destruct (keep_first_occurrence recs) as [|r rs]; [congruence|].
  cbn [length] in *. repeat split; lia.
Qed.

Lemma persister_counts_add_up_witness :
  exists df w' removed saved,
    save_to_csv (OList merged) "reddit_data.csv" w0 = (Ok (Some df), w')
    /\ console w'
       = console w0
         ++ [[Lit "Removed "; Num removed; Lit " duplicate posts."];
             [Lit "Saving "; Num saved; Lit " cleaned posts to '";
              Lit "reddit_data.csv"; Lit ("'..." ++ nl)];
             [Lit "Data saved successfully to "; Lit "reddit_data.csv"]]
    /\ saved = Z.of_nat (length (df_rows df))
    /\ (removed + saved = Z.of_nat (length merged))%Z
    /\ (0 <= removed)%Z
    /\ (1 <= saved)%Z.
Proof.
  apply (persister_counts_add_up merged "reddit_data.csv" w0). discriminate.
Defined.

(** ** What the persister leaves alone *)

Lemma read_other_after_write (filename other : string) (c : csv_file)
    (fs : list (string * csv_file)) :
  other <> filename ->
  read_file other (write_file filename c fs) = read_file other fs.
Proof.
  intros N. unfold read_file, write_file. cbn [find fst].
  assert (String.eqb filename other = false) as E.
  { apply String.eqb_neq. congruence. }
  rewrite E. f_equal.
  induction fs as [|[g d] fs IH]; [reflexivity|].
  cbn [filter find fst]. destruct (String.eqb g filename) eqn:G; cbn [negb].
  - apply String.eqb_eq in G. subst g. rewrite E. exact IH.
  - cbn [find fst]. destruct (String.eqb g other); [reflexivity | exact IH].
Qed.

(** X14: whatever it is given, the persister makes no call on the API client
    and leaves every file other than the named one with the content it
    had. *)
Theorem persister_touches_only_named_file :
  forall all_posts filename other w,
    other <> filename ->
    read_file other (files (snd (save_to_csv all_posts filename w)))
    = read_file other (files w)
    /\ api_calls (snd (save_to_csv all_posts filename w)) = api_calls w.
Proof.
  intros all_posts filename other w N.
  destruct all_posts as [| b | z | recs].
  - split; reflexivity.
  - destruct b; split; reflexivity.
  - unfold save_to_csv. destruct (truthy (OInt z)); split; reflexivity.
  - destruct recs as [|r rest]; [split; reflexivity|].
    rewrite (save_to_csv_exact (r :: rest) filename w) by discriminate.
    cbn [snd files api_calls]. split; [|reflexivity].
    now apply read_other_after_write.
Qed.

Lemma persister_touches_only_named_file_witness :
  read_file "notes.txt"
    (files (snd (save_to_csv (OList merged) "reddit_data.csv" w0)))
  = read_file "notes.txt" (files w0).
Proof.
  apply (persister_touches_only_named_file (OList merged) "reddit_data.csv"
           "notes.txt" w0).
  discriminate.
Defined.

(** ** The columns of the table *)

Lemma first_seen_app {A K} (eqb : K -> K -> bool) (key : A -> K)
    (seen : list K) (a b : list A) :
  first_seen eqb key seen (a ++ b)
  = first_seen eqb key seen a
    ++ first_seen eqb key (rev (map key (first_seen eqb key seen a)) ++ seen) b.
Proof.
  revert seen. induction a as [|x a IH]; intros seen; [reflexivity|].
  cbn [app first_seen]. destruct (existsb (eqb (key x)) seen).
  - apply IH.
  - cbn [app map rev]. rewrite IH, <- app_assoc. reflexivity.
Qed.

Lemma first_seen_all_seen {A K} (eqb : K -> K -> bool) (key : A -> K)
    (seen : list K) (l : list A) :
  (forall x, In x l -> existsb (eqb (key x)) seen = true) ->
  first_seen eqb key seen l = [].
Proof.
  induction l as [|x rest IH]; intros H; [reflexivity|].
  cbn [first_seen]. rewrite (H x (or_introl eq_refl)).
  apply IH. intros y Hy. apply H. now right.
Qed.

Lemma record_keys_columns (r : PostRecord.t) :
  record_keys r
  = hot_columns ++ (if has_search_query r then ["search_query"] else []).
Proof.
  unfold record_keys, has_search_query.
  now destruct (PostRecord.search_query r).
Qed.

Lemma columns_after_search_query (recs : list PostRecord.t) :
  first_seen String.eqb (fun k => k) ("search_query" :: rev hot_columns)
    (flat_map record_keys recs)
  = [].
Proof.
  apply first_seen_all_seen. intros k H.
  apply in_flat_map in H. destruct H as [r [_ H]].
  rewrite record_keys_columns in H. apply in_app_or in H.
  destruct H as [H|H].
  - cbn in H.
    repeat (destruct H as [<-|H]; [reflexivity|]). destruct H.
  - destruct (has_search_query r); cbn in H; [|destruct H].
    destruct H as [<-|[]]. reflexivity.
Qed.

Lemma columns_after_hot_columns (recs : list PostRecord.t) :
  first_seen String.eqb (fun k => k) (rev hot_columns)
    (flat_map record_keys recs)
  = if existsb has_search_query recs then ["search_query"] else [].
Proof.
  induction recs as [|r rest IH]; [reflexivity|].
  cbn [flat_map existsb]. rewrite first_seen_app, record_keys_columns.
  destruct (has_search_query r); cbn [orb].
  - assert (first_seen String.eqb (fun k : string => k) (rev hot_columns)
              (hot_columns ++ ["search_query"]) = ["search_query"]) as E
        by reflexivity.
    rewrite E. cbn [map rev app].
    now rewrite columns_after_search_query.
  - assert (first_seen String.eqb (fun k : string => k) (rev hot_columns)
              (hot_columns ++ []) = []) as E by reflexivity.
    rewrite E. cbn [map rev app]. exact IH.
Qed.

Lemma table_of_columns (recs : list PostRecord.t) :
  recs <> [] ->
  df_columns (table_of recs)
  = hot_columns ++ (if existsb has_search_query recs
                    then ["search_query"] else []).
Proof.
  destruct recs as [|r rest]; [congruence|]. intros _.
  unfold table_of. cbn [df_columns flat_map existsb].
  rewrite first_seen_app, record_keys_columns.
  destruct (has_search_query r); cbn [orb].
  - assert (first_seen String.eqb (fun k : string => k) []
              (hot_columns ++ ["search_query"])
            = hot_columns ++ ["search_query"]) as E by reflexivity.
    rewrite E.
    assert (rev (map (fun k : string => k) (hot_columns ++ ["search_query"]))
            ++ [] = "search_query" :: rev hot_columns) as R by reflexivity.
    rewrite R, columns_after_search_query. now rewrite app_nil_r.
  - assert (first_seen String.eqb (fun k : string => k) [] (hot_columns ++ [])
            = hot_columns) as E by reflexivity.
    rewrite E.
    assert (rev (map (fun k : string => k) hot_columns) ++ []
            = rev hot_columns) as R by reflexivity.
    rewrite R. now rewrite columns_after_hot_columns.
Qed.

(** X15: the header of the written file is the thirteen columns of a hot
    post, in the order of the dict literal, followed by [search_query]
    exactly when some input record is a search result; the input decides,
    so the column stays even when duplicate removal drops every search
    result. *)
Theorem table_header_columns :
  forall recs filename w,
    recs <> [] ->
    exists df w',
      save_to_csv (OList recs) filename w = (Ok (Some df), w')
      /\ df_columns df
         = hot_columns ++ (if existsb has_search_query recs
                           then ["search_query"] else [])
      /\ option_map csv_header (read_file filename (files w'))
         = Some (df_columns df).
Proof.
  intros recs filename w N. rewrite (save_to_csv_exact recs filename w N).
  eexists. eexists. split; [reflexivity|]. split.
  - now apply table_of_columns.
  - cbn [files]. now rewrite read_after_write.
Qed.

Lemma table_header_columns_witness :
  exists df w',
    save_to_csv (OList [rec_a; rec_a_found]) "reddit_data.csv" w0
    = (Ok (Some df), w')
    /\ df_columns df = hot_columns ++ ["search_query"]
    /\ map row_label (df_rows df) = [0].
Proof.
  destruct (table_header_columns [rec_a; rec_a_found] "reddit_data.csv" w0)
    as [df [w' [E [C _]]]]; [discriminate|].
  exists df, w'. split; [exact E|]. split; [exact C|].
  vm_compute in E. inversion E. reflexivity.
Defined.

(** ** Merging two fetches *)

Lemma keep_first_app (a b : list PostRecord.t) :
  keep_first_occurrence (a ++ b)
  = keep_first_occurrence a
    ++ filter (fun x => negb (existsb (same_key (PostRecord.permalink x))
                                (map PostRecord.permalink a)))
         (keep_first_occurrence b).
Proof.
  induction a as [|r a IH].
  - cbn [app keep_first_occurrence map existsb negb].
    induction (keep_first_occurrence b) as [|x xs IHx]; [reflexivity|].
    cbn [filter]. now rewrite <- IHx.
  - cbn [app keep_first_occurrence map]. f_equal.
    rewrite IH, filter_app. f_equal.
    rewrite <- filter_both. apply filter_ext. intros x.
    cbn [existsb]. rewrite negb_orb. apply andb_comm.
Qed.

(** X16: when the persister is given hot posts followed by search results,
    as the script does, the hot posts win: the rows are built from the
    de-duplicated hot posts, followed by the de-duplicated search results
    whose permalink no hot post has, and carry their permalinks, in that
    order. *)
Theorem hot_posts_win_over_search_results :
  forall hot_posts search_results filename w,
    hot_posts ++ search_results <> [] ->
    let kept :=
      keep_first_occurrence hot_posts
      ++ filter (fun x =>
                   negb (existsb (same_key (PostRecord.permalink x))
                           (map PostRecord.permalink hot_posts)))
           (keep_first_occurrence search_results) in
    exists df w',
      save_to_csv (OList (hot_posts ++ search_results)) filename w
      = (Ok (Some df), w')
      /\ map (source_of (hot_posts ++ search_results)) (df_rows df)
         = map Some kept
      /\ map row_permalink (df_rows df) = map PostRecord.permalink kept.
Proof.
  intros hot_posts search_results filename w N kept. subst kept.
  rewrite (save_to_csv_exact _ filename w N).
  eexists. eexists. split; [reflexivity|].
  rewrite table_of_sources, table_of_permalinks, keep_first_app.
  split; reflexivity.
Qed.

Lemma hot_posts_win_over_search_results_witness :
  exists df w',
    save_to_csv (OList (hot_side ++ search_side)) "reddit_data.csv" w0
    = (Ok (Some df), w')
    /\ map (source_of (hot_side ++ search_side)) (df_rows df)
       = [Some rec_a; Some rec_zero]
    /\ map row_permalink (df_rows df) = [Some "/r/ml/a"; None].
Proof.
  destruct (hot_posts_win_over_search_results hot_side search_side
              "reddit_data.csv" w0) as [df [w' [E [S P]]]]; [discriminate|].
  exists df, w'. split; [exact E|]. rewrite S, P. split; reflexivity.
Defined.

(** ** The whole run *)

Lemma fetch_outcome_complete answer record_of names :
  (forall n, In n names -> completes (answer n) = true) ->
  fetch_outcome answer record_of names
  = Ok (OList (fetched answer record_of names)).
Proof.
  intros C. apply first_failure_none in C. unfold fetch_outcome. now rewrite C.
Qed.

(** X17: when every call of both fetches completes, the script body ends
    normally.  If at least one record was fetched, [reddit_data.csv] then
    holds one line for the first record of each permalink among the hot
    records followed by the search records, in that order: the lines' labels
    point at these records and the lines carry their permalinks.  If none
    was fetched, the persister prints its notice and the files are left as
    they were. *)
Theorem main_writes_merged_table :
  forall reddit w,
    all_complete (hot_listing reddit (VInt 10)) subreddits ->
    all_complete (search_listing reddit (VStr "GPT-4") (VInt 10)) subreddits ->
    let hot_posts :=
      flat_map (fun n => map (hot_record n)
                           (posts_of (hot_listing reddit (VInt 10) n)))
        (items subreddits) in
    let search_results :=
      flat_map (fun n => map (search_record (VStr "GPT-4") n)
                           (posts_of (search_listing reddit (VStr "GPT-4")
                                        (VInt 10) n)))
        (items subreddits) in
    exists w',
      main reddit w = (Ok tt, w')
      /\ (hot_posts ++ search_results <> [] ->
          exists c,
            read_file "reddit_data.csv" (files w') = Some c
            /\ map (source_of (hot_posts ++ search_results)) (csv_rows c)
               = map Some (keep_first_occurrence (hot_posts ++ search_results))
            /\ map row_permalink (csv_rows c)
               = map PostRecord.permalink
                   (keep_first_occurrence (hot_posts ++ search_results)))
      /\ (hot_posts ++ search_results = [] ->
          files w' = files w
          /\ exists earlier,
               console w' = console w ++ earlier ++ [[Lit "No posts to save."]]).
Proof.
  intros reddit w Ch Cs hot_posts search_results.
  unfold main.
  pose proof (download_hot_posts_exact reddit subreddits (VInt 10) w eq_refl)
    as Eh.
  rewrite (fetch_outcome_complete _ hot_record _ Ch) in Eh.
  rewrite (bind_ok _ _ _ Eh). cbv beta.
  match goal with |- context [bind (search_posts _ _ _ _) _ ?w1] =>
    pose proof (search_posts_exact reddit (VStr "GPT-4") subreddits (VInt 10)
                  w1 eq_refl eq_refl) as Es
  end.
  rewrite (fetch_outcome_complete _ (search_record (VStr "GPT-4")) _ Cs) in Es.
  rewrite (bind_ok _ _ _ Es).
  change (fetched (hot_listing reddit (VInt 10)) hot_record (items subreddits))
    with hot_posts.
  change (fetched (search_listing reddit (VStr "GPT-4") (VInt 10))
            (search_record (VStr "GPT-4")) (items subreddits))
    with search_results.
  unfold bind at 1. unfold lift. cbn [py_add].
  destruct (hot_posts ++ search_results) as [|r rest] eqn:E.
  - unfold bind. rewrite save_to_csv_falsy by reflexivity. unfold ret.
    eexists. split; [reflexivity|]. split; [congruence|]. intros _.
    cbn [files console grow]. split; [reflexivity|].
    rewrite <- !app_assoc.
    match goal with
    | |- exists e, _ ++ ?A ++ ?B ++ ?C ++ ?D ++ _ = _ =>
        exists (A ++ B ++ C ++ D)
    end.
    rewrite <- !app_assoc. reflexivity.
  - unfold bind.
    rewrite (save_to_csv_exact (r :: rest) "reddit_data.csv") by discriminate.
    unfold print. eexists. split; [reflexivity|]. split; [|discriminate].
    intros _. cbn [files]. rewrite read_after_write.
    eexists. split; [reflexivity|]. cbn [csv_of csv_rows].
    rewrite <- E. split; [apply table_of_sources | apply table_of_permalinks].
Qed.

Lemma main_writes_merged_table_witness :
  exists w' c,
    main steady_reddit w0 = (Ok tt, w')
    /\ read_file "reddit_data.csv" (files w') = Some c
    /\ map row_label (csv_rows c) = [0; 1; 7]
    /\ map row_permalink (csv_rows c) = [Some "/r/ml/a"; Some "/r/ml/b"; None].
Proof.
  destruct (main_writes_merged_table steady_reddit w0) as [w' [E [F _]]].
  - intros n _. reflexivity.
  - intros n _. reflexivity.
  - destruct F as [c [R _]]; [discriminate|].
    exists w', c. split; [exact E|]. split; [exact R|].
    vm_compute in E. inversion E; subst w'. vm_compute in R.
    inversion R. split; reflexivity.
Defined.

(** ** The start of the script *)

Lemma script_start (env_file : option config)
    (praw_Reddit : credentials -> reply Session) (w : world) :
  script env_file praw_Reddit w
  = match praw_Reddit (credentials_of (config_of env_file)) with
    | Raises e => (Raises e, grow w (config_lines env_file) [])
    | Ok reddit =>
        match user_me reddit with
        | Raises e =>
            (Raises e,
             grow w (config_lines env_file
                     ++ [[Lit "Reddit API authenticated successfully!"]]) [])
        | Ok me =>
            main (session_reddit reddit)
              (grow w (config_lines env_file
                       ++ [[Lit "Reddit API authenticated successfully!"];
                           [Lit "Connected as: "; Val (identity me)]]) [])
        end
    end.
Proof.
  unfold script, credentials_of, config_of, config_lines, grow.
  destruct env_file as [c|]; unfold bind, print, ret, lift;
    cbn [console api_calls files];
    match goal with |- context [praw_Reddit ?c] =>
      destruct (praw_Reddit c) as [reddit|e]
    end;
    rewrite ?app_nil_r, <- ?app_assoc; try reflexivity;
    destruct (user_me reddit) as [me|e];
    rewrite ?app_nil_r, <- ?app_assoc; reflexivity.
Qed.

(** X18: when the client library's constructor raises, the script ends with
    that exception right after the lines about the configuration file: the
    success message is not printed, no fetch call is made and no file is
    written. *)
Theorem script_stops_when_constructor_raises :
  forall env_file praw_Reddit w e,
    praw_Reddit (credentials_of (config_of env_file)) = Raises e ->
    script env_file praw_Reddit w
    = (Raises e,
       {| console := console w ++ config_lines env_file;
          api_calls := api_calls w;
          files := files w |}).
Proof.
  intros env_file praw_Reddit w e H. rewrite script_start, H.
  unfold grow. now rewrite app_nil_r.
Qed.

Lemma script_stops_when_constructor_raises_witness :
  script None refusing_praw w0
  = (Raises refused,
     {| console := config_lines None; api_calls := []; files := [] |}).
Proof.
  apply (script_stops_when_constructor_raises None refusing_praw w0 refused).
  reflexivity.
Defined.

(** X19: the script prints "Reddit API authenticated successfully!" as soon
    as the constructor returns, before it asks for the identity: when
    [reddit.user.me()] then raises, the script ends with that exception
    with the success message as its last line, no fetch call made and no
    file written. *)
Theorem success_message_precedes_identity_check :
  forall env_file praw_Reddit w reddit e,
    praw_Reddit (credentials_of (config_of env_file)) = Ok reddit ->
    user_me reddit = Raises e ->
    script env_file praw_Reddit w
    = (Raises e,
       {| console := console w ++ config_lines env_file
                     ++ [[Lit "Reddit API authenticated successfully!"]];
          api_calls := api_calls w;
          files := files w |}).
Proof.
  intros env_file praw_Reddit w reddit e H U. rewrite script_start, H, U.
  unfold grow. now rewrite app_nil_r.
Qed.

Lemma success_message_precedes_identity_check_witness :
  script (Some sample_config) unauthorized_praw w0
  = (Raises (Exc OtherException "received 401 HTTP response"),
     {| console := [[Lit "Environment variables loaded from ";
                     Lit "reddit.env"; Lit "!"];
                    [Lit "Reddit API authenticated successfully!"]];
        api_calls := [];
        files := [] |}).
Proof.
  apply (success_message_precedes_identity_check (Some sample_config)
           unauthorized_praw w0
           {| session_reddit := steady_reddit;
              user_me := Raises (Exc OtherException "received 401 HTTP response") |}
           (Exc OtherException "received 401 HTTP response")).
  - reflexivity.
  - reflexivity.
Defined.


